(** * Socialsense: campaign matching, metrics aggregation and alerting

    A shallow embedding of [src/models.py], [src/campaign_logic.py],
    [src/alerting_system.py] and [src/ai_analysis/analyzer.py].

    Conventions of the embedding.
    - Python [int] is [Z]; Python [float] is IEEE binary64, the kernel's
      [float]; [int / int] and [round(x, 2)] are written out below.
    - A naive [datetime] is its wall-clock reading, a [Z] (any fixed unit);
      an aware one carries a [tzinfo].  Reading the clock is an argument of
      the function that reads it.
    - Attributes that may hold [None] are [option]s; a Python [dict] keyed by
      strings is a [gmap string _].
    - A [for] loop that mutates [self] and appends to a list is a left fold
      over the state it mutates.
    - [logging] calls write to the logging subsystem only and are left out. *)

From Stdlib Require Import ZArith Floats Ascii String List Bool Lia Sorted.
From stdpp Require Import base option list strings pretty gmap.

Local Open Scope string_scope.
Local Open Scope Z_scope.

#[local] Set Warnings "-inexact-float,-register-all".

(** ** Python strings *)

Module PyStr.

(** [str.lower()] on ASCII text. *)
Definition lower_ascii (a : ascii) : ascii :=
  let n := nat_of_ascii a in
  if (Nat.leb 65 n && Nat.leb n 90)%bool then ascii_of_nat (n + 32) else a.

Fixpoint lower (s : string) : string :=
  match s with
  | EmptyString => EmptyString
  | String a t => String (lower_ascii a) (lower t)
  end.

(** [needle in hay] for two [str]: substring test. *)
Fixpoint contains (needle hay : string) : bool :=
  (String.prefix needle hay ||
   match hay with
   | EmptyString => false
   | String _ t => contains needle t
   end)%bool.

(** Truthiness of an optional [str]: [None] and [""] are falsy. *)
Definition truthy (o : option string) : bool :=
  match o with
  | Some (String _ _) => true
  | _ => false
  end.

End PyStr.

(** ** Python numbers *)

Module PyNum.

(** An [int] as an exact (unnormalised) binary float: mantissa [z],
    exponent [0]. *)
Definition Z2SF (z : Z) : spec_float :=
  match z with
  | Z0 => S754_zero false
  | Zpos p => S754_finite false p 0
  | Zneg p => S754_finite true p 0
  end.

(** [a / b] on two [int]s: the correctly rounded quotient.  Python raises
    [ZeroDivisionError] when [b == 0]; every call below is guarded. *)
Definition truediv (a b : Z) : float :=
  SF2Prim (SFdiv prec emax (Z2SF a) (Z2SF b)).

(** Nearest integer to [n / d] ([d > 0]), ties to even. *)
Definition div_half_even (n d : Z) : Z :=
  let q := n / d in
  let r := n mod d in
  match (2 * r) ?= d with
  | Lt => q
  | Gt => q + 1
  | Eq => if Z.even q then q else q + 1
  end.

(** [round(x, 2)]: the exact value of [x] rounded half-even to two
    decimals, then the nearest float to that decimal. *)
Definition round2 (x : float) : float :=
  match Prim2SF x with
  | S754_finite s m e =>
      let n := Zpos m * 100 in
      let k := if 0 <=? e then n * 2 ^ e else div_half_even n (2 ^ (- e)) in
      if k =? 0 then (if s then (-0)%float else 0%float)
      else truediv (if s then - k else k) 100
  | _ => x
  end.

End PyNum.

(** ** [datetime] *)

Record datetime := mk_datetime {
  wall : Z;                 (* year..microsecond, as one number *)
  tzinfo : option Z         (* [None]: naive; [Some off]: aware *)
}.

(** [dt.replace(tzinfo=None)] *)
Definition replace_tzinfo_None (dt : datetime) : datetime :=
  {| wall := wall dt; tzinfo := None |}.

(** ** [models.py] *)

(** What a post's [timestamp] attribute may hold, by run-time type. *)
Inductive timestamp_value :=
| TsInt (n : Z)
| TsFloat (f : float)
| TsStr (s : string)
| TsDatetime (dt : datetime)
| TsOther.

(** [post.sentiment], when it is a [dict]: the value of [.get('label')]. *)
Record sentiment_dict := { sd_label : option string }.

Record SocialMediaPost := {
  post_id : string;
  account_id : string;
  platform : string;
  content : option string;
  media_urls : list string;
  timestamp : timestamp_value;
  likes : option Z;
  shares : option Z;
  comments_count : option Z;
  reach : option Z;
  (* attributes the analysis step may attach to the object *)
  sentiment_label : option string;
  sentiment : option sentiment_dict
}.

Record Campaign := {
  campaign_id : string;
  user_id : string;
  name : string;
  start_date : option Z;          (* naive datetime, or None *)
  end_date : option Z;
  tracked_keywords : list string;
  tracked_hashtags : list string;
  tracked_accounts : list string;
  status : string;
  total_posts : Z;
  total_likes : Z;
  total_shares : Z;
  total_comments : Z;
  total_reach : Z;
  avg_engagement_rate : float;
  associated_post_ids : list string
}.

(** [Campaign.__init__] *)
Definition new_Campaign (campaign_id user_id name : string)
    (start_date end_date : option Z)
    (tracked_keywords tracked_hashtags tracked_accounts : list string) : Campaign :=
  {| campaign_id := campaign_id; user_id := user_id; name := name;
     start_date := start_date; end_date := end_date;
     tracked_keywords := tracked_keywords;
     tracked_hashtags := tracked_hashtags;
     tracked_accounts := tracked_accounts;
     status := "Planning";
     total_posts := 0; total_likes := 0; total_shares := 0;
     total_comments := 0; total_reach := 0;
     avg_engagement_rate := 0%float;
     associated_post_ids := [] |}.

Definition set_status (self : Campaign) (s : string) : Campaign :=
  {| campaign_id := campaign_id self; user_id := user_id self; name := name self;
     start_date := start_date self; end_date := end_date self;
     tracked_keywords := tracked_keywords self;
     tracked_hashtags := tracked_hashtags self;
     tracked_accounts := tracked_accounts self;
     status := s;
     total_posts := total_posts self; total_likes := total_likes self;
     total_shares := total_shares self; total_comments := total_comments self;
     total_reach := total_reach self;
     avg_engagement_rate := avg_engagement_rate self;
     associated_post_ids := associated_post_ids self |}.

Definition set_metrics (self : Campaign)
    (posts likes shares comments reach : Z) (rate : float) (ids : list string) : Campaign :=
  {| campaign_id := campaign_id self; user_id := user_id self; name := name self;
     start_date := start_date self; end_date := end_date self;
     tracked_keywords := tracked_keywords self;
     tracked_hashtags := tracked_hashtags self;
     tracked_accounts := tracked_accounts self;
     status := status self;
     total_posts := posts; total_likes := likes;
     total_shares := shares; total_comments := comments;
     total_reach := reach;
     avg_engagement_rate := rate;
     associated_post_ids := ids |}.

(** [sum(post.f for post in posts if post.f is not None)] *)
Definition sum_present (f : SocialMediaPost -> option Z) (posts : list SocialMediaPost) : Z :=
  foldl Z.add 0 (omap f posts).

(** [d and p(d)] for an optional date [d]: a [datetime] is always truthy,
    [None] never. *)
Definition date_and (d : option Z) (p : Z -> bool) : bool :=
  match d with
  | Some v => p v
  | None => false
  end.

(** [Campaign._update_status_logic] *)
Definition _update_status_logic (self : Campaign) (current_time : datetime) : Campaign :=
  let ct_for_comparison :=
    match tzinfo current_time with
    | Some _ => replace_tzinfo_None current_time
    | None => current_time
    end in
  let ct := wall ct_for_comparison in
  if date_and (end_date self) (fun e => e <? ct) then set_status self "Finished"
  else if date_and (start_date self) (fun s => s <=? ct) then set_status self "Active"
  else if date_and (start_date self) (fun s => ct <? s) then set_status self "Planning"
  else self.

(** [Campaign.update_status]; [clock] is what
    [datetime.datetime.now(datetime.timezone.utc)] returns when it is read. *)
Definition update_status (self : Campaign) (now : option datetime) (clock : datetime) : Campaign :=
  let current_time := match now with None => clock | Some t => t end in
  _update_status_logic self current_time.

(** [Campaign.update_metrics] *)
Definition update_metrics (self : Campaign) (clock : datetime) (posts : list SocialMediaPost) : Campaign :=
  match posts with
  | [] => set_metrics self 0 0 0 0 0 0%float []        (* ... return *)
  | _ :: _ =>
      let total_posts := Z.of_nat (length posts) in
      let total_likes := sum_present likes posts in
      let total_shares := sum_present shares posts in
      let total_comments := sum_present comments_count posts in
      let total_reach := sum_present reach posts in
      let associated_post_ids := map post_id posts in
      let total_engagements := total_likes + total_shares + total_comments in
      let rate :=
        if 0 <? total_reach then
          PyNum.round2 (PyNum.truediv total_engagements total_reach * 100)%float
        else if 0 <? total_posts then
          PyNum.round2 (PyNum.truediv total_engagements total_posts)
        else 0%float in
      update_status
        (set_metrics self total_posts total_likes total_shares total_comments
           total_reach rate associated_post_ids)
        None clock
  end.

(** ** [campaign_logic.py] *)

(** Values a caller may hand to the functions of [campaign_logic.py], by
    run-time type; [isinstance] tests are matches on the constructor. *)
Inductive pyobj :=
| PyNone
| PyStr (s : string)
| PyInt (n : Z)
| PyCampaign (c : Campaign)
| PyPost (p : SocialMediaPost)
| PyList (l : list pyobj).

Definition as_post (o : pyobj) : option SocialMediaPost :=
  match o with PyPost p => Some p | _ => None end.

Definition as_campaign (o : pyobj) : option Campaign :=
  match o with PyCampaign c => Some c | _ => None end.

(** How a call ends: with a value, or with an exception raised to the
    caller. *)
Inductive py_result (A : Type) :=
| Return (v : A)
| Raise (exc : string).
Arguments Return {A} v.
Arguments Raise {A} exc.

#[export] Instance py_result_ret : MRet py_result := fun _ v => Return v.
#[export] Instance py_result_bind : MBind py_result := fun _ _ f r =>
  match r with
  | Return v => f v
  | Raise e => Raise e
  end.

(** [s.replace("Z", "+00:00")] *)
Fixpoint replace_Z (s : string) : string :=
  match s with
  | EmptyString => EmptyString
  | String c t =>
      if Ascii.eqb c "Z"%char then "+00:00" +:+ replace_Z t
      else String c (replace_Z t)
  end.

Section Matcher.

(** The [datetime] library: [fromtimestamp(t, tz=timezone.utc)] for an
    [int] and for a [float] (numbers in the range the library converts), and
    [fromisoformat], [None] standing for its [ValueError]. *)
Variable fromtimestamp_int : Z -> datetime.
Variable fromtimestamp_float : float -> datetime.
Variable fromisoformat : string -> option datetime.

(** The timestamp handling at the head of the loop body; [None] is a
    [continue]. *)
Definition normalize_timestamp (ts : timestamp_value) : option Z :=
  let post_timestamp :=
    match ts with
    | TsInt n => Some (fromtimestamp_int n)
    | TsFloat f => Some (fromtimestamp_float f)
    | TsStr s => fromisoformat (replace_Z s)
    | TsDatetime dt => Some dt
    | TsOther => None
    end in
  (fun dt =>
     wall (match tzinfo dt with
           | Some _ => replace_tzinfo_None dt
           | None => dt
           end)) <$> post_timestamp.

(** 1. Date filter: [false] is a [continue]. *)
Definition date_filter (campaign : Campaign) (post_timestamp : Z) : bool :=
  if date_and (start_date campaign) (fun s => post_timestamp <? s) then false
  else if date_and (end_date campaign) (fun e => e <? post_timestamp) then false
  else true.

(** A non-empty list is truthy. *)
Definition nonempty {A} (l : list A) : bool :=
  match l with [] => false | _ :: _ => true end.

(** 2. Content/Account filter: the final value of [matches_criteria]. *)
Definition matches_criteria (campaign : Campaign) (post : SocialMediaPost) : bool :=
  let post_content_lower :=
    match content post with
    | Some (String a t) => PyStr.lower (String a t)
    | _ => ""
    end in
  let m := false in
  let m :=
    if nonempty (tracked_accounts campaign)
       && bool_decide (account_id post ∈ tracked_accounts campaign)
    then true else m in
  let m :=
    if negb m && nonempty (tracked_keywords campaign)
    then existsb (fun keyword => PyStr.contains (PyStr.lower keyword) post_content_lower)
           (tracked_keywords campaign)
    else m in
  let m :=
    if negb m && nonempty (tracked_hashtags campaign)
    then existsb (fun hashtag => PyStr.contains ("#" +:+ PyStr.lower hashtag) post_content_lower)
           (tracked_hashtags campaign)
    else m in
  m.

(** Date eligibility, for stating properties: the post's timestamp can be
    normalised and passes the date filter. *)
Definition date_eligible (campaign : Campaign) (post : SocialMediaPost) : bool :=
  match normalize_timestamp (timestamp post) with
  | Some post_timestamp => date_filter campaign post_timestamp
  | None => false
  end.

(** One pass of the loop body: is [post] appended to [relevant_posts]? *)
Definition relevant (campaign : Campaign) (post : SocialMediaPost) : bool :=
  match normalize_timestamp (timestamp post) with
  | None => false
  | Some post_timestamp =>
      date_filter campaign post_timestamp && matches_criteria campaign post
  end.

(** [get_posts_for_campaign] *)
Definition get_posts_for_campaign (campaign all_posts : pyobj)
    : py_result (list SocialMediaPost) :=
  match campaign with
  | PyCampaign campaign =>
      match all_posts with
      | PyList all_posts =>
          (* items that are not posts are filtered out *)
          let all_posts := omap as_post all_posts in
          Return (filter (fun post => relevant campaign post = true) all_posts)
      | _ => Return []
      end
  | _ => Return []
  end.

(** The loop of [process_campaigns]; [clock i] is the time
    [update_metrics] reads for the campaign at position [i]. *)
Fixpoint process_loop (clock : nat -> datetime) (i : nat)
    (campaign_list : list Campaign) (all_social_posts : pyobj)
    : py_result (list Campaign) :=
  match campaign_list with
  | [] => Return []
  | campaign :: rest =>
      relevant_posts_for_campaign ←
        get_posts_for_campaign (PyCampaign campaign) all_social_posts;
      let campaign := update_metrics campaign (clock i) relevant_posts_for_campaign in
      rest ← process_loop clock (S i) rest all_social_posts;
      Return (campaign :: rest)
  end.

(** [process_campaigns] *)
Definition process_campaigns (clock : nat -> datetime)
    (campaign_list all_social_posts : pyobj) : py_result (list Campaign) :=
  match campaign_list with
  | PyList l =>
      if forallb (fun c => bool_decide (is_Some (as_campaign c))) l
      then process_loop clock 0 (omap as_campaign l) all_social_posts
      else Return []
  | _ => Return []
  end.

End Matcher.

(** ** [ai_analysis/analyzer.py]: the keyword sentiment analyzer *)

Module SentimentAnalyzer.

(** Characters [str.split()] treats as white space. *)
Definition is_space (a : ascii) : bool :=
  let n := nat_of_ascii a in
  (Nat.eqb n 32 || (Nat.leb 9 n && Nat.leb n 13) || (Nat.leb 28 n && Nat.leb n 31))%bool.

(** [text.split()], [tok] being the token read so far. *)
Fixpoint split_from (tok s : string) : list string :=
  match s with
  | EmptyString => match tok with EmptyString => [] | _ => [tok] end
  | String c t =>
      if is_space c
      then match tok with
           | EmptyString => split_from "" t
           | _ => tok :: split_from "" t
           end
      else split_from (tok +:+ String c "") t
  end.

Definition split (s : string) : list string := split_from "" s.

Definition in_chars (chars : string) (c : ascii) : bool :=
  existsb (Ascii.eqb c) (list_ascii_of_string chars).

Fixpoint lstrip (chars s : string) : string :=
  match s with
  | EmptyString => EmptyString
  | String c t => if in_chars chars c then lstrip chars t else s
  end.

(** [token.strip(chars)] *)
Definition strip (chars s : string) : string :=
  let rev_str x := string_of_list_ascii (rev (list_ascii_of_string x)) in
  rev_str (lstrip chars (rev_str (lstrip chars s))).

Definition positive_keywords : list string :=
  ["good"; "great"; "awesome"; "love"; "happy"; "best"; "excellent"; "nice";
   "superb"; "yay"; "wow"].

Definition negative_keywords : list string :=
  ["bad"; "terrible"; "awful"; "hate"; "sad"; "worst"; "poor"; "crap";
   "sucks"; "boo"].

Definition punctuation_to_strip_sentiment : string :=
  String "." (String "," (String "!" (String "?" (String ";" (String ":"
  (String (ascii_of_nat 34) (String "'" (String "(" (String ")" (String "["
  (String "]" (String "{" (String "}" "")))))))))))))%char.

(** [analyze_sentiment]: the ['label'] of the result. *)
Definition analyze_sentiment (text : string) : sentiment_dict :=
  match text with
  | EmptyString => {| sd_label := Some "neutral" |}
  | _ =>
      let text_lower := PyStr.lower text in
      let tokens_for_sentiment := split text_lower in
      let '(positive_score, negative_score) :=
        foldl (fun '(p, n) token =>
                 let cleaned_token := strip punctuation_to_strip_sentiment token in
                 if bool_decide (cleaned_token ∈ positive_keywords) then (p + 1, n)
                 else if bool_decide (cleaned_token ∈ negative_keywords) then (p, n + 1)
                 else (p, n))
              (0, 0) tokens_for_sentiment in
      if negative_score <? positive_score then {| sd_label := Some "positive" |}
      else if positive_score <? negative_score then {| sd_label := Some "negative" |}
      else {| sd_label := Some "neutral" |}
  end.

End SentimentAnalyzer.

(** [AIAnalyzerService]: what the alerting service calls on it. *)
Record AIAnalyzerService := {
  sentiment_analyzer_analyze_sentiment : string -> sentiment_dict
}.

(** [AIAnalyzerService()] *)
Definition new_AIAnalyzerService : AIAnalyzerService :=
  {| sentiment_analyzer_analyze_sentiment := SentimentAnalyzer.analyze_sentiment |}.

(** ** [models.py]: [Alert] *)

(** An f-string: literal text and formatted holes, in order. *)
Inductive fpart :=
| Lit (s : string)
| FStr (s : string)                 (* {s}     *)
| FInt (n : Z)                      (* {n}     *)
| FFix (digits : nat) (x : float).  (* {x:.df} *)

Record Alert := {
  alert_id : string;
  alert_user_id : string;
  message : list fpart;
  type : string;
  severity : string;
  related_entity_id : option string;
  related_entity_type : option string;
  alert_timestamp : datetime;
  is_read : bool;
  read_at : option datetime
}.

(** [Alert.__init__]; [clock] is the time the constructor reads. *)
Definition new_Alert (alert_id user_id : string) (message : list fpart)
    (alert_type severity : string)
    (related_entity_id related_entity_type : option string) (clock : datetime) : Alert :=
  {| alert_id := alert_id; alert_user_id := user_id; message := message;
     type := alert_type; severity := severity;
     related_entity_id := related_entity_id;
     related_entity_type := related_entity_type;
     alert_timestamp := clock; is_read := false; read_at := None |}.

(** [Alert.mark_as_read]; [clock] is the time the call reads. *)
Definition mark_as_read (self : Alert) (clock : datetime) : Alert :=
  {| alert_id := alert_id self; alert_user_id := alert_user_id self;
     message := message self; type := type self; severity := severity self;
     related_entity_id := related_entity_id self;
     related_entity_type := related_entity_type self;
     alert_timestamp := alert_timestamp self;
     is_read := true; read_at := Some clock |}.

(** ** [alerting_system.py] *)

Definition TREND_VOLUME_THRESHOLD : Z := 100.
Definition TREND_VELOCITY_THRESHOLD : Z := 50.
Definition CAMPAIGN_ENGAGEMENT_DROP_PERCENTAGE : float := (-20)%float.
Definition CAMPAIGN_ENGAGEMENT_SPIKE_PERCENTAGE : float := 30%float.
Definition NEGATIVE_SENTIMENT_THRESHOLD : float := 0.6%float.
Definition NEGATIVE_SENTIMENT_POST_COUNT : nat := 10.

(** The values of [self.seen_trends] and [self.previous_campaign_metrics]. *)
Record TrendObservation := {
  volume : Z;
  trend_timestamp : datetime
}.

Record CampaignObservation := {
  obs_avg_engagement_rate : float;
  obs_total_likes : Z;
  obs_timestamp : datetime
}.

Record AlertingService := {
  service_user_id : string;
  previous_campaign_metrics : gmap string CampaignObservation;
  seen_trends : gmap string TrendObservation;
  ai_analyzer : option AIAnalyzerService
}.

(** [AlertingService.__init__]; [analyzer] is [None] when the import of
    [AIAnalyzerService] failed. *)
Definition new_AlertingService (user_id : string) (analyzer : option AIAnalyzerService)
    : AlertingService :=
  {| service_user_id := user_id; previous_campaign_metrics := ∅;
     seen_trends := ∅; ai_analyzer := analyzer |}.

(** What the run-time hands to one call of a check: [utcnow] is the
    [datetime.utcnow()] read on entry; the [k]-th alert built during the call
    gets [uuid k] from [_generate_alert_id] and reads [created k] as its
    [timestamp]. *)
Record runtime := {
  utcnow : datetime;
  uuid : nat -> string;
  created : nat -> datetime
}.

(** An element of [current_trends]: a [dict] that may lack either key. *)
Record trend_data := {
  term : option string;
  count : option Z
}.

Definition set_seen_trends (self : AlertingService) (m : gmap string TrendObservation)
    : AlertingService :=
  {| service_user_id := service_user_id self;
     previous_campaign_metrics := previous_campaign_metrics self;
     seen_trends := m; ai_analyzer := ai_analyzer self |}.

Definition set_previous_campaign_metrics (self : AlertingService)
    (m : gmap string CampaignObservation) : AlertingService :=
  {| service_user_id := service_user_id self;
     previous_campaign_metrics := m;
     seen_trends := seen_trends self; ai_analyzer := ai_analyzer self |}.

(** [alerts.append(Alert(alert_id=self._generate_alert_id(), user_id=self.user_id, ...))] *)
Definition append_alert (rt : runtime) (self : AlertingService) (alerts : list Alert)
    (msg : list fpart) (alert_type severity related_entity_id related_entity_type : string)
    : list Alert :=
  let k := length alerts in
  alerts ++ [new_Alert (uuid rt k) (service_user_id self) msg alert_type severity
               (Some related_entity_id) (Some related_entity_type) (created rt k)].

(** The body of the loop of [check_trend_alerts]. *)
Definition check_trend_body (rt : runtime)
    (st : AlertingService * list Alert) (trend_data : trend_data)
    : AlertingService * list Alert :=
  let '(self, alerts) := st in
  let count := default 0 (count trend_data) in
  match term trend_data with
  | None | Some EmptyString => (self, alerts)          (* continue *)
  | Some term =>
      match seen_trends self !! term with
      | None =>
          let alerts :=
            if TREND_VOLUME_THRESHOLD <=? count then
              append_alert rt self alerts
                [Lit "New significant trend detected: '"; FStr term; Lit "' with ";
                 FInt count; Lit " mentions."]
                "new_trend" "info" term "trend_term"
            else alerts in
          (set_seen_trends self
             (<[term := {| volume := count; trend_timestamp := utcnow rt |}]>
                (seen_trends self)),
           alerts)
      | Some seen =>
          let prev_volume := volume seen in
          let volume_increase := count - prev_volume in
          let alerts :=
            if (TREND_VELOCITY_THRESHOLD <=? volume_increase)
               && (TREND_VOLUME_THRESHOLD <=? count) then
              append_alert rt self alerts
                [Lit "Trend '"; FStr term; Lit "' is growing rapidly! Now at ";
                 FInt count; Lit " mentions (up by "; FInt volume_increase; Lit ")."]
                "trend_velocity_spike" "warning" term "trend_term"
            else alerts in
          (set_seen_trends self
             (<[term := {| volume := count; trend_timestamp := utcnow rt |}]>
                (seen_trends self)),
           alerts)
      end
  end.

(** [AlertingService.check_trend_alerts]: the service after the call, and
    the alerts returned. *)
Definition check_trend_alerts (self : AlertingService) (rt : runtime)
    (current_trends : list trend_data) : AlertingService * list Alert :=
  foldl (check_trend_body rt) (self, []) current_trends.

(** [percentage_change], as the loop of
    [check_campaign_performance_alerts] computes it. *)
Definition percentage_change (prev_engagement_rate current_engagement_rate : float) : float :=
  if negb (prev_engagement_rate =? 0)%float then
    ((current_engagement_rate - prev_engagement_rate) / abs prev_engagement_rate * 100)%float
  else if (0 <? current_engagement_rate)%float then
    (CAMPAIGN_ENGAGEMENT_SPIKE_PERCENTAGE + 1)%float
  else 0%float.

(** The two values of [alert_msg]. *)
Definition spike_msg (campaign : Campaign)
    (percentage_change current_engagement_rate : float) : list fpart :=
  [Lit "Campaign '"; FStr (name campaign); Lit "' engagement spiked by ";
   FFix 1 percentage_change; Lit "%! Current rate: ";
   FFix 2 current_engagement_rate; Lit "%."].

Definition drop_msg (campaign : Campaign)
    (percentage_change current_engagement_rate : float) : list fpart :=
  [Lit "Campaign '"; FStr (name campaign); Lit "' engagement dropped by ";
   FFix 1 (abs percentage_change); Lit "%! Current rate: ";
   FFix 2 current_engagement_rate; Lit "%."].

(** The body of the loop of [check_campaign_performance_alerts]. *)
Definition check_campaign_body (rt : runtime)
    (st : AlertingService * list Alert) (campaign : Campaign)
    : AlertingService * list Alert :=
  let '(self, alerts) := st in
  if negb (String.eqb (status campaign) "Active") then (self, alerts)   (* continue *)
  else
    let current_engagement_rate := avg_engagement_rate campaign in
    let alerts :=
      match previous_campaign_metrics self !! campaign_id campaign with
      | Some prev_metrics =>
          let prev_engagement_rate := obs_avg_engagement_rate prev_metrics in
          let percentage_change :=
            percentage_change prev_engagement_rate current_engagement_rate in
          if (CAMPAIGN_ENGAGEMENT_SPIKE_PERCENTAGE <=? percentage_change)%float then
            append_alert rt self alerts
              (spike_msg campaign percentage_change current_engagement_rate)
              "campaign_performance_change" "warning" (campaign_id campaign) "campaign"
          else if (percentage_change <=? CAMPAIGN_ENGAGEMENT_DROP_PERCENTAGE)%float then
            append_alert rt self alerts
              (drop_msg campaign percentage_change current_engagement_rate)
              "campaign_performance_change" "critical" (campaign_id campaign) "campaign"
          else alerts
      | None => alerts
      end in
    (set_previous_campaign_metrics self
       (<[campaign_id campaign :=
            {| obs_avg_engagement_rate := current_engagement_rate;
               obs_total_likes := total_likes campaign;
               obs_timestamp := utcnow rt |}]>
          (previous_campaign_metrics self)),
     alerts).

(** [AlertingService.check_campaign_performance_alerts] *)
Definition check_campaign_performance_alerts (self : AlertingService) (rt : runtime)
    (campaigns : list Campaign) : AlertingService * list Alert :=
  foldl (check_campaign_body rt) (self, []) campaigns.

(** The label the loop of [check_sentiment_alerts] settles on for a post
    with content. *)
Definition resolve_sentiment_label (analyzer : AIAnalyzerService)
    (post : SocialMediaPost) (post_content : string) : option string :=
  let label := sentiment_label post in
  let label :=
    if negb (PyStr.truthy label) then
      match sentiment post with
      | Some d => sd_label d
      | None => label
      end
    else label in
  let label :=
    if negb (PyStr.truthy label)
    then sd_label (sentiment_analyzer_analyze_sentiment analyzer post_content)
    else label in
  label.

(** [negative_post_count] after the loop of [check_sentiment_alerts]. *)
Definition negative_post_count (analyzer : AIAnalyzerService)
    (campaign_posts : list SocialMediaPost) : nat :=
  foldl (fun n post =>
           match content post with
           | Some (String a t) =>
               if bool_decide (resolve_sentiment_label analyzer post (String a t)
                               = Some "negative")
               then S n else n
           | _ => n
           end) 0%nat campaign_posts.

(** The value of [msg] in [check_sentiment_alerts]. *)
Definition negative_msg (campaign : Campaign) (negative_percentage : float)
    (negative_post_count n_posts : nat) : list fpart :=
  [Lit "High negative sentiment ("; FFix 1 negative_percentage;
   Lit "%) detected for campaign '"; FStr (name campaign);
   Lit "' based on "; FInt (Z.of_nat negative_post_count); Lit "/";
   FInt (Z.of_nat n_posts); Lit " recent posts."].

(** [AlertingService.check_sentiment_alerts] *)
Definition check_sentiment_alerts (self : AlertingService) (rt : runtime)
    (campaign : Campaign) (campaign_posts : list SocialMediaPost) : list Alert :=
  let alerts := [] in
  match ai_analyzer self with
  | None => alerts
  | Some analyzer =>
      if (length campaign_posts <? NEGATIVE_SENTIMENT_POST_COUNT)%nat then alerts
      else
        let negative_post_count := negative_post_count analyzer campaign_posts in
        if (0 <? negative_post_count)%nat then
          let negative_percentage :=
            (PyNum.truediv (Z.of_nat negative_post_count)
               (Z.of_nat (length campaign_posts)) * 100)%float in
          if (NEGATIVE_SENTIMENT_THRESHOLD * 100 <=? negative_percentage)%float then
            append_alert rt self alerts
              (negative_msg campaign negative_percentage negative_post_count
                 (length campaign_posts))
              "negative_sentiment_surge" "critical" (campaign_id campaign) "campaign"
          else alerts
        else alerts
  end.

(** The runtimes of the calls one cycle of [run_all_checks] makes: of its
    trend check, of its campaign check, and of the sentiment check it makes
    for the campaign at position [i]. *)
Record cycle_runtime := {
  rt_trend : runtime;
  rt_campaign : runtime;
  rt_sentiment : nat -> runtime
}.

(** The sentiment loop of [run_all_checks], from position [i] on. *)
Fixpoint sentiment_loop (self : AlertingService) (crt : cycle_runtime)
    (all_posts_for_sentiment_analysis : gmap string (list SocialMediaPost))
    (i : nat) (campaigns : list Campaign) (all_new_alerts : list Alert) : list Alert :=
  match campaigns with
  | [] => all_new_alerts
  | campaign :: rest =>
      let all_new_alerts :=
        if String.eqb (status campaign) "Active" then
          match all_posts_for_sentiment_analysis !! campaign_id campaign with
          | Some campaign_posts =>
              let sentiment_campaign_alerts :=
                check_sentiment_alerts self (rt_sentiment crt i) campaign campaign_posts in
              (all_new_alerts ++ sentiment_campaign_alerts)%list
          | None => all_new_alerts
          end
        else all_new_alerts in
      sentiment_loop self crt all_posts_for_sentiment_analysis (S i) rest all_new_alerts
  end.

(** [AlertingService.run_all_checks]; the posts argument is [None] when it
    is left out, and an empty [dict] is falsy. *)
Definition run_all_checks (self : AlertingService) (crt : cycle_runtime)
    (campaigns : list Campaign) (current_trends_data : list trend_data)
    (all_posts_for_sentiment_analysis : option (gmap string (list SocialMediaPost)))
    : AlertingService * list Alert :=
  let all_new_alerts : list Alert := [] in
  let '(self, trend_alerts) :=
    check_trend_alerts self (rt_trend crt) current_trends_data in
  let all_new_alerts := (all_new_alerts ++ trend_alerts)%list in
  let '(self, perf_alerts) :=
    check_campaign_performance_alerts self (rt_campaign crt) campaigns in
  let all_new_alerts := (all_new_alerts ++ perf_alerts)%list in
  let all_new_alerts :=
    match ai_analyzer self, all_posts_for_sentiment_analysis with
    | Some _, Some all_posts =>
        if bool_decide (all_posts = ∅) then all_new_alerts
        else sentiment_loop self crt all_posts 0 campaigns all_new_alerts
    | _, _ => all_new_alerts
    end in
  (self, all_new_alerts).

(** ** [ai_analysis/analyzer.py]: hashtag extraction without a language model *)

Module TrendIdentifier.

(** The white space [str.strip()] removes. *)
Definition whitespace : string :=
  string_of_list_ascii
    (ascii_of_nat <$> [9; 10; 11; 12; 13; 28; 29; 30; 31; 32]%nat).

(** [s.rstrip(chars)] *)
Definition rstrip (chars s : string) : string :=
  let rev_str x := string_of_list_ascii (rev (list_ascii_of_string x)) in
  rev_str (SentimentAnalyzer.lstrip chars (rev_str s)).

(** [word.startswith("#")] *)
Definition startswith_hash (word : string) : bool :=
  match word with
  | String c _ => Ascii.eqb c "#"%char
  | EmptyString => false
  end.

Definition punctuation_to_strip : string := ".,!?;:".

(** What one word adds to [all_hashtags]: the cleaned hashtag, when the
    word starts with ["#"] and something is left of it. *)
Definition cleaned_hashtag (word : string) : option string :=
  if startswith_hash word then
    let cleaned_hashtag :=
      rstrip punctuation_to_strip
        (SentimentAnalyzer.lstrip "#"
           (SentimentAnalyzer.strip whitespace (PyStr.lower word))) in
    match cleaned_hashtag with
    | EmptyString => None
    | _ => Some cleaned_hashtag
    end
  else None.

(** The hashtags one item of [text_list] adds; an item that is not a [str]
    is passed over. *)
Definition hashtags_of (text : pyobj) : list string :=
  match text with
  | PyStr text => omap cleaned_hashtag (SentimentAnalyzer.split text)
  | _ => []
  end.

(** [Counter(items)]: the distinct items in order of first occurrence, each
    with its number of occurrences. *)
Fixpoint counter_add (k : string) (c : list (string * Z)) : list (string * Z) :=
  match c with
  | [] => [(k, 1)]
  | (k', n) :: rest =>
      if String.eqb k' k then (k', n + 1) :: rest else (k', n) :: counter_add k rest
  end.

Definition Counter (items : list string) : list (string * Z) :=
  foldl (fun c k => counter_add k c) [] items.

(** [sorted(items, key=itemgetter(1), reverse=True)], which is stable:
    [x] goes before the first entry it is not smaller than. *)
Fixpoint insert_desc (x : string * Z) (l : list (string * Z)) : list (string * Z) :=
  match l with
  | [] => [x]
  | y :: l' => if y.2 <=? x.2 then x :: y :: l' else y :: insert_desc x l'
  end.

Definition sorted_desc (l : list (string * Z)) : list (string * Z) :=
  foldr insert_desc [] l.

(** [c.most_common(n)] for an [int] [n]. *)
Definition most_common (c : list (string * Z)) (n : Z) : list (string * Z) :=
  take (Z.to_nat n) (sorted_desc c).

(** [TrendIdentifier.extract_keywords] when [self.nlp] is [None]. *)
Definition extract_keywords (text_list : list pyobj) (top_n : Z) : list (string * Z) :=
  let all_hashtags := text_list ≫= hashtags_of in
  match all_hashtags with
  | [] => []
  | _ => most_common (Counter all_hashtags) top_n
  end.

End TrendIdentifier.

(** ** [ai_analysis/analyzer.py]: [AIAnalyzerService.analyze_posts] *)

(** The ['score'] of a sentiment result: an [int] or a [float]. *)
Inductive py_number :=
| NumInt (n : Z)
| NumFloat (x : float).

(** The [dict] [analyze_sentiment] returns; [sr_error] is the ['error']
    key, when present. *)
Record sentiment_result := {
  sr_label : string;
  sr_score : py_number;
  sr_error : option string
}.

(** Truthiness of a value; the classes of [models.py] define neither
    [__bool__] nor [__len__]. *)
Definition py_truthy (o : pyobj) : bool :=
  match o with
  | PyNone => false
  | PyStr s => match s with EmptyString => false | _ => true end
  | PyInt n => negb (n =? 0)
  | PyList l => match l with [] => false | _ => true end
  | PyCampaign _ | PyPost _ => true
  end.

(** The two counters of [analyze_sentiment] after its loop. *)
Definition keyword_scores (text : string) : Z * Z :=
  let text_lower := PyStr.lower text in
  let tokens_for_sentiment := SentimentAnalyzer.split text_lower in
  foldl (fun '(p, n) token =>
           let cleaned_token :=
             SentimentAnalyzer.strip SentimentAnalyzer.punctuation_to_strip_sentiment token in
           if bool_decide (cleaned_token ∈ SentimentAnalyzer.positive_keywords) then (p + 1, n)
           else if bool_decide (cleaned_token ∈ SentimentAnalyzer.negative_keywords) then (p, n + 1)
           else (p, n))
        (0, 0) tokens_for_sentiment.

(** [SentimentAnalyzer.analyze_sentiment] on any value, with the whole
    result. *)
Definition analyze_sentiment_full (text : pyobj) : sentiment_result :=
  match text with
  | PyStr (String _ _ as text) =>
      let '(positive_score, negative_score) := keyword_scores text in
      if negative_score <? positive_score then
        {| sr_label := "positive"; sr_score := NumInt (positive_score - negative_score);
           sr_error := None |}
      else if positive_score <? negative_score then
        {| sr_label := "negative"; sr_score := NumInt (positive_score - negative_score);
           sr_error := None |}
      else {| sr_label := "neutral"; sr_score := NumFloat 0; sr_error := None |}
  | _ =>
      {| sr_label := "neutral"; sr_score := NumFloat 0;
         sr_error := Some "Invalid input text" |}
  end.

(** A value of an augmented post: one of the post's own, or the sentiment
    result stored under ['sentiment']. *)
Inductive post_value :=
| Given (o : pyobj)
| Sentiment (r : sentiment_result).

(** The [dict] [analyze_posts] returns. *)
Record analysis := {
  analyzed_posts : list (gmap string post_value);
  trends : list trend_data
}.

(** The body of the loop of [analyze_posts], on [analyzed_posts] and
    [all_text_content]. *)
Definition analyze_posts_body
    (st : list (gmap string post_value) * list pyobj) (post : gmap string pyobj)
    : list (gmap string post_value) * list pyobj :=
  let '(analyzed_posts, all_text_content) := st in
  let content := default PyNone (post !! "content") in
  if py_truthy content then
    let all_text_content := (all_text_content ++ [content])%list in
    let sentiment_result := analyze_sentiment_full content in
    let augmented_post := <["sentiment" := Sentiment sentiment_result]> (Given <$> post) in
    ((analyzed_posts ++ [augmented_post])%list, all_text_content)
  else
    let augmented_post :=
      <["sentiment" := Sentiment {| sr_label := "neutral"; sr_score := NumFloat 0;
                                    sr_error := Some "No content to analyze" |}]>
        (Given <$> post) in
    ((analyzed_posts ++ [augmented_post])%list, all_text_content).

(** [AIAnalyzerService.analyze_posts] on a list of [dict]s, for a service
    made without a language model. *)
Definition analyze_posts (posts_data : list (gmap string pyobj)) : analysis :=
  match posts_data with
  | [] => {| analyzed_posts := []; trends := [] |}
  | _ =>
      let '(analyzed_posts, all_text_content) :=
        foldl analyze_posts_body ([], []) posts_data in
      let trends :=
        match all_text_content with
        | [] => []
        | _ =>
            (fun '(term, count) => {| term := Some term; count := Some count |})
              <$> TrendIdentifier.extract_keywords all_text_content 10
        end in
      {| analyzed_posts := analyzed_posts; trends := trends |}
  end.

(** * Sample data and auxiliary definitions *)

(** A [datetime] library used where an example needs a concrete one: the
    examples below carry native [datetime] timestamps, which do not go
    through it. *)
Definition lib_fromtimestamp_int (n : Z) : datetime := mk_datetime n (Some 0).
Definition lib_fromtimestamp_float (f : float) : datetime := mk_datetime 0 (Some 0).
Definition lib_fromisoformat (s : string) : option datetime := None.

Definition sample_campaign : Campaign :=
  new_Campaign "camp001" "user001" "New Year Promo" (Some 0) (Some 100)
    ["special offer"] ["promo"] ["twitter:MyBrandAccount"].

Definition sample_post (id : string) (text : option string) (at_ : Z)
    (likes shares comments reach : option Z) : SocialMediaPost :=
  {| post_id := id; account_id := "twitter:AnotherAccount"; platform := "twitter";
     content := text; media_urls := []; timestamp := TsDatetime (mk_datetime at_ None);
     likes := likes; shares := shares; comments_count := comments; reach := reach;
     sentiment_label := None; sentiment := None |}.

Definition sample_clock : datetime := {| wall := 50; tzinfo := Some 0 |}.

Definition bare_campaign : Campaign :=
  new_Campaign "camp_nc" "user1" "No Criteria Campaign" (Some 0) (Some 100) [] [] [].

Definition blank_keyword_campaign : Campaign :=
  new_Campaign "camp002" "user001" "February Love" (Some 0) (Some 100)
    [""] ["FebLove"] ["twitter:MyBrandAccount"].

(** A post without text, dated inside the sample campaigns' window, from an
    account none of them tracks. *)
Definition textless_post : SocialMediaPost :=
  sample_post "post9" None 10 (Some 4) None None None.

Definition sample_batch_clock (i : nat) : datetime := sample_clock.

Definition sample_runtime : runtime :=
  {| utcnow := mk_datetime 50 None;
     uuid := fun k => "alert_" +:+ pretty k;
     created := fun _ => mk_datetime 50 (Some 0) |}.

Definition trend (t : string) (n : Z) : trend_data :=
  {| term := Some t; count := Some n |}.

(** For stating what a call of [check_trend_alerts] leaves in
    [seen_trends]: the count of the last entry of [l] whose term is [t]. *)
Fixpoint latest_count (t : string) (l : list trend_data) : option Z :=
  match l with
  | [] => None
  | td :: rest =>
      match latest_count t rest with
      | Some n => Some n
      | None => if bool_decide (term td = Some t) then Some (default 0 (count td)) else None
      end
  end.

(** The sample campaign, [Active], with a given engagement rate. *)
Definition active_campaign (rate : float) : Campaign :=
  set_metrics (set_status sample_campaign "Active") 0 0 0 0 0 rate [].

(** A post with text that carries a label already. *)
Definition labelled_post (label : string) : SocialMediaPost :=
  {| post_id := "pA"; account_id := "user_acc"; platform := "twitter";
     content := Some "This is a post for Summer Sale.";
     media_urls := []; timestamp := TsDatetime (mk_datetime 10 None);
     likes := Some 0; shares := Some 0; comments_count := Some 0; reach := None;
     sentiment_label := None; sentiment := Some {| sd_label := Some label |} |}.

(** [negative] posts labelled negative among [total] posts. *)
Definition labelled_posts (negative total : nat) : list SocialMediaPost :=
  replicate negative (labelled_post "negative")
  ++ replicate (total - negative) (labelled_post "neutral").

(** The alerts the checks build. *)
Definition spike_alert (rt : runtime) (self : AlertingService) (k : nat)
    (campaign : Campaign) (pct : float) : Alert :=
  new_Alert (uuid rt k) (service_user_id self)
    (spike_msg campaign pct (avg_engagement_rate campaign))
    "campaign_performance_change" "warning"
    (Some (campaign_id campaign)) (Some "campaign") (created rt k).

Definition drop_alert (rt : runtime) (self : AlertingService) (k : nat)
    (campaign : Campaign) (pct : float) : Alert :=
  new_Alert (uuid rt k) (service_user_id self)
    (drop_msg campaign pct (avg_engagement_rate campaign))
    "campaign_performance_change" "critical"
    (Some (campaign_id campaign)) (Some "campaign") (created rt k).

Definition negative_alert (rt : runtime) (self : AlertingService)
    (campaign : Campaign) (negative_percentage : float) (negative n_posts : nat) : Alert :=
  new_Alert (uuid rt 0) (service_user_id self)
    (negative_msg campaign negative_percentage negative n_posts)
    "negative_sentiment_surge" "critical"
    (Some (campaign_id campaign)) (Some "campaign") (created rt 0).

(** The test of [check_sentiment_alerts] on [negative] posts out of
    [n_posts], and the same threshold read on the fraction itself and on the
    exact quotient. *)
Definition surge_test (negative n_posts : nat) : bool :=
  (NEGATIVE_SENTIMENT_THRESHOLD * 100
   <=? PyNum.truediv (Z.of_nat negative) (Z.of_nat n_posts) * 100)%float.

Definition surge_test_fraction (negative n_posts : nat) : bool :=
  (NEGATIVE_SENTIMENT_THRESHOLD
   <=? PyNum.truediv (Z.of_nat negative) (Z.of_nat n_posts))%float.

Definition surge_test_exact (negative n_posts : nat) : bool :=
  6 * Z.of_nat n_posts <=? 10 * Z.of_nat negative.

(** The wall-clock reading [update_status] compares the dates with. *)
Definition effective_time (now : option datetime) (clock : datetime) : Z :=
  wall (match now with None => clock | Some t => t end).

(** The identity, dates and criteria of a campaign: everything but its
    status and metrics. *)
Definition campaign_setup (c : Campaign)
    : string * string * string * option Z * option Z
      * list string * list string * list string :=
  (campaign_id c, user_id c, name c, start_date c, end_date c,
   tracked_keywords c, tracked_hashtags c, tracked_accounts c).

(** The metrics block of a campaign. *)
Definition campaign_metrics (c : Campaign) : Z * Z * Z * Z * Z * float * list string :=
  (total_posts c, total_likes c, total_shares c, total_comments c,
   total_reach c, avg_engagement_rate c, associated_post_ids c).

(** The sum of a field over the posts, an absent value counting as zero. *)
Definition sum_or_zero (f : SocialMediaPost -> option Z) (posts : list SocialMediaPost) : Z :=
  foldr (fun post acc => default 0 (f post) + acc) 0 posts.

(** The text the matcher searches: the lower-cased content, or the empty
    string when there is none. *)
Definition post_content_lower (post : SocialMediaPost) : string :=
  match content post with
  | Some (String a t) => PyStr.lower (String a t)
  | _ => ""
  end.

(** The closed date window of a campaign, an absent date leaving its side
    open. *)
Definition in_window (campaign : Campaign) (t : Z) : Prop :=
  (forall s, start_date campaign = Some s -> s <= t) /\
  (forall e, end_date campaign = Some e -> t <= e).

(** The fields every alert built by a check shares: the [k]-th alert of a
    call with runtime [rt], for the service's user, unread. *)
Definition alert_header (rt : runtime) (user : string) (k : nat) (a : Alert) : Prop :=
  alert_id a = uuid rt k /\ alert_user_id a = user /\
  alert_timestamp a = created rt k /\ is_read a = false /\ read_at a = None.

(** An alert of the trend tracker about an entry of [l]. *)
Definition is_trend_alert (l : list trend_data) (a : Alert) : Prop :=
  related_entity_type a = Some "trend_term" /\
  ((type a = "new_trend" /\ severity a = "info") \/
   (type a = "trend_velocity_spike" /\ severity a = "warning")) /\
  exists td t, td ∈ l /\ term td = Some t /\ t <> "" /\
    related_entity_id a = Some t /\
    TREND_VOLUME_THRESHOLD <= default 0 (count td).

(** Entries that can raise a trend alert at all: a term and a count at or
    above the volume threshold. *)
Definition loud_entry (td : trend_data) : bool :=
  PyStr.truthy (term td) && (TREND_VOLUME_THRESHOLD <=? default 0 (count td)).

(** Every term of the list comes with one count. *)
Definition one_count_per_term (l : list trend_data) : Prop :=
  forall td1 td2, td1 ∈ l -> td2 ∈ l -> term td1 = term td2 ->
    default 0 (count td1) = default 0 (count td2).

(** The [Active] campaigns of a list, and their ids. *)
Definition active_campaigns (l : list Campaign) : list Campaign :=
  filter (fun c => status c = "Active") l.

Definition active_ids (l : list Campaign) : list string :=
  campaign_id <$> active_campaigns l.

(** The observation the campaign tracker stores for a campaign. *)
Definition observation_of (rt : runtime) (c : Campaign) : CampaignObservation :=
  {| obs_avg_engagement_rate := avg_engagement_rate c;
     obs_total_likes := total_likes c;
     obs_timestamp := utcnow rt |}.

(** An alert of the campaign tracker about an [Active] campaign of [l]. *)
Definition is_campaign_alert (l : list Campaign) (a : Alert) : Prop :=
  type a = "campaign_performance_change" /\
  related_entity_type a = Some "campaign" /\
  (severity a = "warning" \/ severity a = "critical") /\
  exists c, c ∈ l /\ status c = "Active" /\ related_entity_id a = Some (campaign_id c).

(** The last [Active] campaign of a list with a given id. *)
Definition last_active (id : string) (l : list Campaign) : option Campaign :=
  last (filter (fun c => status c = "Active" /\ campaign_id c = id) l).

(** An alert of the sentiment detector about an [Active] campaign of [l]
    that has at least the minimum number of posts in [posts]. *)
Definition is_sentiment_alert (l : list Campaign)
    (posts : gmap string (list SocialMediaPost)) (a : Alert) : Prop :=
  type a = "negative_sentiment_surge" /\ severity a = "critical" /\
  related_entity_type a = Some "campaign" /\ is_read a = false /\
  exists c ps, c ∈ l /\ status c = "Active" /\ posts !! campaign_id c = Some ps /\
    (NEGATIVE_SENTIMENT_POST_COUNT <= length ps)%nat /\
    related_entity_id a = Some (campaign_id c).

(** A post has text: its content is neither [None] nor empty. *)
Definition has_text (post : SocialMediaPost) : bool := PyStr.truthy (content post).

(** A post carries a label of its own, on [sentiment_label] or in its
    [sentiment] dict. *)
Definition prelabelled (post : SocialMediaPost) : bool :=
  PyStr.truthy (sentiment_label post)
  || match sentiment post with
     | Some d => PyStr.truthy (sd_label d)
     | None => false
     end.

(** A post the detector counts as negative: it has text and its label
    resolves to ["negative"]. *)
Definition counts_negative (analyzer : AIAnalyzerService) (post : SocialMediaPost) : bool :=
  match content post with
  | Some (String a t) =>
      bool_decide (resolve_sentiment_label analyzer post (String a t) = Some "negative")
  | _ => false
  end.

(** The cleaned hashtags of a list of texts, in reading order. *)
Definition all_hashtags (text_list : list pyobj) : list string :=
  text_list ≫= TrendIdentifier.hashtags_of.

(** How often [k] occurs in [l]. *)
Definition occurrences (k : string) (l : list string) : Z :=
  Z.of_nat (length (filter (fun x => x = k) l)).

(** The count a [Counter] holds for [k]; [0] when [k] is not a key. *)
Fixpoint count_of (k : string) (c : list (string * Z)) : Z :=
  match c with
  | [] => 0
  | (k', n) :: rest => if String.eqb k' k then n else count_of k rest
  end.

(** Larger counts first. *)
Definition by_count_desc (x y : string * Z) : Prop := y.2 <= x.2.

(** All letters of [s] are in lower case, as far as ASCII goes. *)
Definition is_lower (s : string) : Prop := PyStr.lower s = s.

(** A text with its ASCII letters in lower case; other values as they are. *)
Definition lower_text (o : pyobj) : pyobj :=
  match o with
  | PyStr s => PyStr (PyStr.lower s)
  | _ => o
  end.

(** [post.get('content')] *)
Definition content_of (post : gmap string pyobj) : pyobj :=
  default PyNone (post !! "content").

(** The score of a sentiment result goes with its label. *)
Definition score_matches_label (res : sentiment_result) : Prop :=
  (sr_label res = "positive" /\ exists n, sr_score res = NumInt n /\ 0 < n) \/
  (sr_label res = "negative" /\ exists n, sr_score res = NumInt n /\ n < 0) \/
  (sr_label res = "neutral" /\ sr_score res = NumFloat 0).

(** * Properties *)

(** ** Numbers and strings *)

(** [round(x, 2)] and [int / int] on a few values, as the interpreter
    prints them. *)
Example round2_samples :
  (PyNum.round2 0.125 = 0.12 /\ PyNum.round2 2.675 = 2.67 /\
   PyNum.round2 (PyNum.truediv 12 100 * 100) = 12 /\
   PyNum.round2 (PyNum.truediv 41 350 * 100) = 11.71 /\
   PyNum.truediv 1 3 = (1 / 3) /\ PyNum.round2 (-0.001) = (-0) /\
   PyNum.round2 1.005 = 1 /\ PyNum.round2 0.285 = 0.28 /\
   PyNum.truediv (-7) 2 = (-3.5))%float.
Proof. vm_compute. repeat split; reflexivity. Qed.

Lemma lower_empty (s : string) : PyStr.lower s = "" <-> s = "".
Proof. destruct s; simpl; split; congruence. Qed.

Lemma contains_in_empty (needle : string) :
  PyStr.contains needle "" = true <-> needle = "".
Proof.
  destruct needle; simpl; split; try congruence; auto.
Qed.

Lemma hashtag_not_in_empty (hashtag : string) :
  PyStr.contains ("#" +:+ PyStr.lower hashtag) "" = false.
Proof. reflexivity. Qed.

(** ** The aggregator *)

Lemma set_status_metrics (self : Campaign) (s : string) :
  total_posts (set_status self s) = total_posts self /\
  total_likes (set_status self s) = total_likes self /\
  total_shares (set_status self s) = total_shares self /\
  total_comments (set_status self s) = total_comments self /\
  total_reach (set_status self s) = total_reach self /\
  avg_engagement_rate (set_status self s) = avg_engagement_rate self /\
  associated_post_ids (set_status self s) = associated_post_ids self.
Proof. repeat split. Qed.

(** The status logic only ever touches [status]. *)
Lemma update_status_metrics (self : Campaign) (now : option datetime) (clock : datetime) :
  let c := update_status self now clock in
  total_posts c = total_posts self /\
  total_likes c = total_likes self /\
  total_shares c = total_shares self /\
  total_comments c = total_comments self /\
  total_reach c = total_reach self /\
  avg_engagement_rate c = avg_engagement_rate self /\
  associated_post_ids c = associated_post_ids self.
Proof.
  unfold update_status, _update_status_logic; cbv zeta.
  repeat case_match; apply set_status_metrics || (repeat split).
Qed.

(** With no posts the metrics are reset and nothing else is done: the
    status is the one the campaign had. *)
Lemma update_metrics_empty (self : Campaign) (clock : datetime) :
  let c := update_metrics self clock [] in
  total_posts c = 0 /\ total_likes c = 0 /\ total_shares c = 0 /\
  total_comments c = 0 /\ total_reach c = 0 /\
  avg_engagement_rate c = 0%float /\ associated_post_ids c = [] /\
  status c = status self.
Proof. repeat split. Qed.

(** C1 (the code at the failing input).  A campaign created in [Planning]
    whose start date has passed, aggregated over no posts at a time when
    [update_status] alone, and [update_metrics] over one post, both make it
    [Active]: the metrics are reset, but the status is not recomputed. *)
Theorem update_metrics_empty_skips_status :
  let campaign := new_Campaign "camp001" "user001" "New Year Promo" (Some 0) None
                    ["discount"] [] [] in
  let clock := {| wall := 10; tzinfo := Some 0 |} in
  let post := {| post_id := "post1"; account_id := "twitter:MyBrandAccount";
                 platform := "twitter"; content := Some "discount";
                 media_urls := []; timestamp := TsDatetime (mk_datetime 5 None);
                 likes := Some 1; shares := Some 0; comments_count := Some 0;
                 reach := Some 10; sentiment_label := None; sentiment := None |} in
  total_posts (update_metrics campaign clock []) = 0 /\
  associated_post_ids (update_metrics campaign clock []) = [] /\
  status (update_metrics campaign clock []) = "Planning" /\
  status (update_status campaign None clock) = "Active" /\
  status (update_metrics campaign clock [post]) = "Active".
Proof. cbv zeta. repeat split. Qed.

Lemma update_metrics_nonempty (self : Campaign) (clock : datetime)
    (post : SocialMediaPost) (posts : list SocialMediaPost) :
  let all := post :: posts in
  let E := sum_present likes all + sum_present shares all
           + sum_present comments_count all in
  let R := sum_present reach all in
  let P := Z.of_nat (length all) in
  let c := update_metrics self clock all in
  total_posts c = P /\ total_likes c = sum_present likes all /\
  total_shares c = sum_present shares all /\
  total_comments c = sum_present comments_count all /\
  total_reach c = R /\
  associated_post_ids c = map post_id all /\
  avg_engagement_rate c =
    if 0 <? R then PyNum.round2 (PyNum.truediv E R * 100)%float
    else if 0 <? P then PyNum.round2 (PyNum.truediv E P)
    else 0%float.
Proof.
  cbv zeta. unfold update_metrics.
  match goal with
  | |- context [update_status ?c ?n ?k] =>
      pose proof (update_status_metrics c n k) as H; cbv zeta in H;
      destruct H as (H1 & H2 & H3 & H4 & H5 & H6 & H7)
  end.
  rewrite H1, H2, H3, H4, H5, H6, H7. repeat split.
Qed.




(** ** [Alert.mark_as_read] *)

(** C9 (amended).  After a first call, a second call keeps [is_read] set and
    every other attribute as it was, and sets [read_at] to the time of the
    second call: the alert is unchanged exactly when both calls read the
    same time. *)
Theorem mark_as_read_twice (self : Alert) (t1 t2 : datetime) :
  let once := mark_as_read self t1 in
  let twice := mark_as_read once t2 in
  is_read once = true /\ is_read twice = true /\
  read_at once = Some t1 /\ read_at twice = Some t2 /\
  twice = mark_as_read self t2 /\
  (twice = once <-> t2 = t1).
Proof.
  cbv zeta. repeat split.
  - intros H. apply (f_equal read_at) in H. simpl in H. congruence.
  - intros ->. reflexivity.
Qed.

(** C9 (counterexample).  Marking an alert read at time 1 and again at time
    2 changes [read_at]. *)
Lemma mark_as_read_again_changes_read_at :
  let alert := new_Alert "alert002" "u002" [Lit "Test"] "general" "info" None None
                 (mk_datetime 0 (Some 0)) in
  let once := mark_as_read alert (mk_datetime 1 (Some 0)) in
  let twice := mark_as_read once (mk_datetime 2 (Some 0)) in
  is_read once = true /\ read_at once = Some (mk_datetime 1 (Some 0)) /\
  read_at twice = Some (mk_datetime 2 (Some 0)) /\
  read_at twice <> read_at once /\ twice <> once.
Proof.
  cbv zeta. repeat split; done.
Qed.

(** ** The matcher *)

Lemma filter_none {A} (P : A -> Prop) `{!forall x, Decision (P x)} (l : list A) :
  (forall x, x ∈ l -> ~ P x) -> filter P l = [].
Proof.
  induction l as [|x l IH]; intros Hall; [done|].
  rewrite filter_cons. destruct (decide (P x)) as [HP|_].
  - exfalso. apply (Hall x); [left | done].
  - apply IH. intros y Hy. apply Hall. by right.
Qed.

Lemma existsb_false {A} (f : A -> bool) (l : list A) :
  (forall x, f x = false) -> existsb f l = false.
Proof. intros H. induction l as [|x l IH]; simpl; [done|]. by rewrite H, IH. Qed.

Lemma existsb_elem_of {A} (f : A -> bool) (l : list A) :
  existsb f l = true <-> exists x, x ∈ l /\ f x = true.
Proof.
  rewrite existsb_exists. split; intros (x & Hx & Hf); exists x; split; try done.
  - by apply list_elem_of_In.
  - by apply list_elem_of_In.
Qed.

Lemma nonempty_elem_of {A} `{EqDecision A} (x : A) (l : list A) :
  nonempty l && bool_decide (x ∈ l) = bool_decide (x ∈ l).
Proof.
  destruct l as [|y l]; simpl; [|done].
  first [done | symmetry; apply bool_decide_eq_false_2, not_elem_of_nil].
Qed.

Lemma nonempty_existsb {A} (f : A -> bool) (l : list A) :
  nonempty l && existsb f l = existsb f l.
Proof. by destruct l. Qed.

(** With nothing tracked, no post meets the content/account filter. *)
Lemma matches_criteria_no_criteria (campaign : Campaign) (post : SocialMediaPost) :
  tracked_keywords campaign = [] -> tracked_hashtags campaign = [] ->
  tracked_accounts campaign = [] ->
  matches_criteria campaign post = false.
Proof. intros Hk Hh Ha. unfold matches_criteria. by rewrite Hk, Hh, Ha. Qed.

(** A post without text meets the content/account filter through its
    account, or through a tracked keyword that is the empty string. *)
Lemma matches_criteria_no_text (campaign : Campaign) (post : SocialMediaPost) :
  PyStr.truthy (content post) = false ->
  matches_criteria campaign post =
    bool_decide (account_id post ∈ tracked_accounts campaign)
    || bool_decide ("" ∈ tracked_keywords campaign).
Proof.
  intros Hc. unfold matches_criteria.
  assert (Hlow : match content post with
                 | Some (String a t) => PyStr.lower (String a t)
                 | _ => ""
                 end = "").
  { destruct (content post) as [[|a t]|]; done. }
  rewrite Hlow, nonempty_elem_of. cbv zeta.
  destruct (bool_decide (account_id post ∈ tracked_accounts campaign)); [done|].
  assert (Hk : existsb (fun keyword => PyStr.contains (PyStr.lower keyword) "")
                 (tracked_keywords campaign)
               = bool_decide ("" ∈ tracked_keywords campaign)).
  { destruct (bool_decide ("" ∈ tracked_keywords campaign)) eqn:E.
    - apply bool_decide_eq_true in E. apply existsb_elem_of.
      exists "". by split.
    - apply bool_decide_eq_false in E.
      destruct (existsb _ _) eqn:E'; [|done]. exfalso. apply E.
      apply existsb_elem_of in E' as (k & Hk & Hin).
      apply (proj1 (contains_in_empty _)), (proj1 (lower_empty _)) in Hin.
      by subst k. }
  assert (Hh : existsb (fun hashtag => PyStr.contains ("#" +:+ PyStr.lower hashtag) "")
                 (tracked_hashtags campaign) = false).
  { apply existsb_false. intros h. apply hashtag_not_in_empty. }
  rewrite Hh, Hk.
  destruct (tracked_keywords campaign) as [|k ks] eqn:Ek.
  - rewrite bool_decide_eq_false_2 by apply not_elem_of_nil.
    by destruct (nonempty (tracked_hashtags campaign)).
  - destruct (bool_decide ("" ∈ k :: ks)); simpl; [done|].
    by destruct (nonempty (tracked_hashtags campaign)).
Qed.

Lemma relevant_split fti ftf fiso (campaign : Campaign) (post : SocialMediaPost) :
  relevant fti ftf fiso campaign post
  = date_eligible fti ftf fiso campaign post && matches_criteria campaign post.
Proof.
  unfold relevant, date_eligible.
  by destruct (normalize_timestamp fti ftf fiso (timestamp post)).
Qed.

Section MatcherProperties.

Variable fromtimestamp_int : Z -> datetime.
Variable fromtimestamp_float : float -> datetime.
Variable fromisoformat : string -> option datetime.

#[local] Abbreviation relevant := (relevant fromtimestamp_int fromtimestamp_float fromisoformat).
#[local] Abbreviation date_eligible :=
  (date_eligible fromtimestamp_int fromtimestamp_float fromisoformat).
#[local] Abbreviation get_posts_for_campaign :=
  (get_posts_for_campaign fromtimestamp_int fromtimestamp_float fromisoformat).
#[local] Abbreviation process_loop :=
  (process_loop fromtimestamp_int fromtimestamp_float fromisoformat).
#[local] Abbreviation process_campaigns :=
  (process_campaigns fromtimestamp_int fromtimestamp_float fromisoformat).

(** The matcher always returns. *)
Lemma get_posts_for_campaign_returns (campaign all_posts : pyobj) :
  exists matched, get_posts_for_campaign campaign all_posts = Return matched.
Proof.
  destruct campaign; simpl; eauto. destruct all_posts; simpl; eauto.
Qed.

Lemma process_loop_returns (clock : nat -> datetime) (l : list Campaign)
    (all_social_posts : pyobj) (i : nat) :
  exists updated, process_loop clock i l all_social_posts = Return updated.
Proof.
  revert i. induction l as [|c l IH]; intros i; simpl; [eauto|].
  destruct (get_posts_for_campaign_returns (PyCampaign c) all_social_posts) as [m Hm].
  simpl in Hm. rewrite Hm. simpl.
  destruct (IH (S i)) as [u Hu]. rewrite Hu. simpl. eauto.
Qed.




End MatcherProperties.






(** ** The trend tracker *)

(** An entry whose term is missing or empty changes nothing. *)
Lemma check_trend_body_skip (rt : runtime) (st : AlertingService * list Alert)
    (td : trend_data) :
  PyStr.truthy (term td) = false -> check_trend_body rt st td = st.
Proof.
  intros H. destruct st as [self alerts]. unfold check_trend_body.
  destruct (term td) as [[|a t]|]; done.
Qed.

(** An entry with a term records its count under that term and leaves the
    other observations alone. *)
Lemma check_trend_body_seen (rt : runtime) (self : AlertingService)
    (alerts : list Alert) (td : trend_data) (t : string) :
  term td = Some t -> t <> "" ->
  seen_trends (check_trend_body rt (self, alerts) td).1
  = <[t := {| volume := default 0 (count td); trend_timestamp := utcnow rt |}]>
      (seen_trends self).
Proof.
  intros Ht Hne. unfold check_trend_body. rewrite Ht.
  destruct t as [|a t]; [done|].
  destruct (seen_trends self !! String a t); reflexivity.
Qed.

(** Below the volume threshold no alert is added. *)
Lemma check_trend_body_quiet (rt : runtime) (self : AlertingService)
    (alerts : list Alert) (td : trend_data) :
  default 0 (count td) < TREND_VOLUME_THRESHOLD ->
  (check_trend_body rt (self, alerts) td).2 = alerts.
Proof.
  intros Hlt. apply Z.leb_gt in Hlt. unfold check_trend_body.
  destruct (term td) as [[|a t]|]; try done.
  destruct (seen_trends self !! String a t); simpl; rewrite Hlt; [|done].
  by rewrite andb_false_r.
Qed.

Lemma check_trend_body_lookup (rt : runtime) (st : AlertingService * list Alert)
    (td : trend_data) (t : string) :
  t <> "" ->
  seen_trends (check_trend_body rt st td).1 !! t
  = if bool_decide (term td = Some t)
    then Some {| volume := default 0 (count td); trend_timestamp := utcnow rt |}
    else seen_trends st.1 !! t.
Proof.
  intros Hne. destruct st as [self alerts].
  destruct (term td) as [t'|] eqn:Ht.
  - destruct (decide (t' = "")) as [->|Hne'].
    + rewrite check_trend_body_skip by (by rewrite Ht).
      rewrite bool_decide_eq_false_2; [done|congruence].
    + rewrite (check_trend_body_seen _ _ _ _ t') by done.
      case_bool_decide as E.
      * simplify_eq. by rewrite lookup_insert_eq.
      * rewrite lookup_insert_ne; [done|congruence].
  - rewrite check_trend_body_skip by (by rewrite Ht).
    by rewrite bool_decide_eq_false_2.
Qed.

Lemma foldl_trend_lookup (rt : runtime) (l : list trend_data)
    (st : AlertingService * list Alert) (t : string) :
  t <> "" ->
  seen_trends (foldl (check_trend_body rt) st l).1 !! t
  = match latest_count t l with
    | Some n => Some {| volume := n; trend_timestamp := utcnow rt |}
    | None => seen_trends st.1 !! t
    end.
Proof.
  intros Hne. revert st. induction l as [|td l IH]; intros st; simpl; [done|].
  rewrite IH. destruct (latest_count t l); [done|].
  rewrite check_trend_body_lookup by done. by case_bool_decide.
Qed.

Lemma foldl_trend_skip (rt : runtime) (l : list trend_data)
    (st : AlertingService * list Alert) :
  foldl (check_trend_body rt) st (filter (fun td => PyStr.truthy (term td) = true) l)
  = foldl (check_trend_body rt) st l.
Proof.
  revert st. induction l as [|td l IH]; intros st; [done|].
  rewrite filter_cons. destruct (decide (PyStr.truthy (term td) = true)) as [E|E]; simpl.
  - apply IH.
  - rewrite check_trend_body_skip by (by destruct (PyStr.truthy (term td))). apply IH.
Qed.





(** ** The campaign tracker *)

(** A change that reaches the spike threshold is not at or below the drop
    threshold. *)
Lemma spike_not_drop (x : float) :
  (CAMPAIGN_ENGAGEMENT_SPIKE_PERCENTAGE <=? x)%float = true ->
  (x <=? CAMPAIGN_ENGAGEMENT_DROP_PERCENTAGE)%float = false.
Proof.
  rewrite !FloatAxioms.leb_spec.
  change (Prim2SF CAMPAIGN_ENGAGEMENT_SPIKE_PERCENTAGE)
    with (S754_finite false 8444249301319680 (-48)).
  change (Prim2SF CAMPAIGN_ENGAGEMENT_DROP_PERCENTAGE)
    with (S754_finite true 5629499534213120 (-48)).
  destruct (Prim2SF x) as [s|s| |s m e]; try destruct s; done.
Qed.

(** A rate equal to zero is not above zero. *)
Lemma eq_zero_not_pos (x : float) :
  (x =? 0)%float = true -> (0 <? x)%float = false.
Proof.
  rewrite FloatAxioms.eqb_spec, FloatAxioms.ltb_spec. change (Prim2SF 0) with (S754_zero false).
  destruct (Prim2SF x) as [s|s| |s m e]; try destruct s; done.
Qed.

Lemma percentage_change_cases (prev cur : float) :
  ((prev =? 0)%float = false ->
     percentage_change prev cur = ((cur - prev) / abs prev * 100)%float) /\
  ((prev =? 0)%float = true -> (0 <? cur)%float = true ->
     percentage_change prev cur = 31%float /\
     (CAMPAIGN_ENGAGEMENT_SPIKE_PERCENTAGE <=? percentage_change prev cur)%float = true) /\
  ((prev =? 0)%float = true -> (cur =? 0)%float = true ->
     percentage_change prev cur = 0%float /\
     (CAMPAIGN_ENGAGEMENT_SPIKE_PERCENTAGE <=? percentage_change prev cur)%float = false /\
     (percentage_change prev cur <=? CAMPAIGN_ENGAGEMENT_DROP_PERCENTAGE)%float = false).
Proof.
  unfold percentage_change. split; [|split].
  - intros H. by rewrite H.
  - intros H1 H2. rewrite H1, H2. simpl. split; reflexivity.
  - intros H1 H2. rewrite H1, (eq_zero_not_pos _ H2). simpl. repeat split; reflexivity.
Qed.

(** A campaign that is not [Active] is passed over. *)
Lemma check_campaign_body_inactive (rt : runtime) (st : AlertingService * list Alert)
    (campaign : Campaign) :
  status campaign <> "Active" -> check_campaign_body rt st campaign = st.
Proof.
  intros H. destruct st as [self alerts]. unfold check_campaign_body.
  apply String.eqb_neq in H. by rewrite H.
Qed.

(** What the loop body does with an [Active] campaign. *)
Lemma check_campaign_body_active (rt : runtime) (self : AlertingService)
    (alerts : list Alert) (campaign : Campaign) :
  status campaign = "Active" ->
  let st' := check_campaign_body rt (self, alerts) campaign in
  let cur := avg_engagement_rate campaign in
  previous_campaign_metrics st'.1
  = <[campaign_id campaign :=
        {| obs_avg_engagement_rate := cur; obs_total_likes := total_likes campaign;
           obs_timestamp := utcnow rt |}]> (previous_campaign_metrics self) /\
  st'.2 = match previous_campaign_metrics self !! campaign_id campaign with
          | None => alerts
          | Some prev =>
              let pct := percentage_change (obs_avg_engagement_rate prev) cur in
              if (CAMPAIGN_ENGAGEMENT_SPIKE_PERCENTAGE <=? pct)%float
              then (alerts ++ [spike_alert rt self (length alerts) campaign pct])%list
              else if (pct <=? CAMPAIGN_ENGAGEMENT_DROP_PERCENTAGE)%float
                   then (alerts ++ [drop_alert rt self (length alerts) campaign pct])%list
                   else alerts
          end.
Proof.
  intros H. apply String.eqb_eq in H. unfold check_campaign_body. rewrite H.
  cbv zeta. simpl. split; [done|].
  destruct (previous_campaign_metrics self !! campaign_id campaign); [|done].
  repeat case_match; done.
Qed.

Lemma check_campaign_snoc (self : AlertingService) (rt : runtime)
    (pre : list Campaign) (campaign : Campaign) :
  check_campaign_performance_alerts self rt (pre ++ [campaign])
  = check_campaign_body rt (check_campaign_performance_alerts self rt pre) campaign.
Proof. unfold check_campaign_performance_alerts. by rewrite foldl_app. Qed.

(** C4.  In a call over a list of campaigns, take an [Active] campaign and
    the tracker as the campaigns before it have left it.  Its current rate
    is recorded.  With no prior observation it adds no alert.  With one, and
    [pct] the percentage change, it adds exactly one [warning] spike alert
    when [pct >= 30], exactly one [critical] drop alert when [pct <= -20],
    nothing otherwise, and never two alerts; [pct] is
    [(current - previous) / abs(previous) * 100] when [previous != 0]; a
    zero [previous] with a positive [current] is a spike; both zero give
    [pct = 0] and no alert.  From 2.5 to 1.5 there is exactly one critical
    drop alert, from 0.0 to 3.0 exactly one warning spike alert. *)
Theorem campaign_tracker_alerts :
  (forall (rt : runtime) (self : AlertingService) (pre : list Campaign)
          (campaign : Campaign),
     status campaign = "Active" ->
     let before := check_campaign_performance_alerts self rt pre in
     let after := check_campaign_performance_alerts self rt (pre ++ [campaign]) in
     let current := avg_engagement_rate campaign in
     previous_campaign_metrics after.1 !! campaign_id campaign
     = Some {| obs_avg_engagement_rate := current;
               obs_total_likes := total_likes campaign;
               obs_timestamp := utcnow rt |} /\
     match previous_campaign_metrics before.1 !! campaign_id campaign with
     | None => after.2 = before.2
     | Some prev =>
         let previous := obs_avg_engagement_rate prev in
         let pct := percentage_change previous current in
         let spike := spike_alert rt before.1 (length before.2) campaign pct in
         let drop := drop_alert rt before.1 (length before.2) campaign pct in
         severity spike = "warning" /\ severity drop = "critical" /\
         ((CAMPAIGN_ENGAGEMENT_SPIKE_PERCENTAGE <=? pct)%float = true ->
            after.2 = (before.2 ++ [spike])%list) /\
         ((pct <=? CAMPAIGN_ENGAGEMENT_DROP_PERCENTAGE)%float = true ->
            after.2 = (before.2 ++ [drop])%list) /\
         ((CAMPAIGN_ENGAGEMENT_SPIKE_PERCENTAGE <=? pct)%float = false ->
          (pct <=? CAMPAIGN_ENGAGEMENT_DROP_PERCENTAGE)%float = false ->
            after.2 = before.2) /\
         (length after.2 <= S (length before.2))%nat /\
         ((previous =? 0)%float = false ->
            pct = ((current - previous) / abs previous * 100)%float) /\
         ((previous =? 0)%float = true -> (0 <? current)%float = true ->
            after.2 = (before.2 ++ [spike])%list) /\
         ((previous =? 0)%float = true -> (current =? 0)%float = true ->
            pct = 0%float /\ after.2 = before.2)
     end) /\
  (forall (user : string) (analyzer : option AIAnalyzerService) (rt1 rt2 : runtime),
     let first := check_campaign_performance_alerts (new_AlertingService user analyzer)
                    rt1 [active_campaign 2.5] in
     let second := check_campaign_performance_alerts first.1 rt2 [active_campaign 1.5] in
     first.2 = [] /\
     second.2 = [drop_alert rt2 first.1 0 (active_campaign 1.5) (-40)]) /\
  (forall (user : string) (analyzer : option AIAnalyzerService) (rt1 rt2 : runtime),
     let first := check_campaign_performance_alerts (new_AlertingService user analyzer)
                    rt1 [active_campaign 0] in
     let second := check_campaign_performance_alerts first.1 rt2 [active_campaign 3] in
     first.2 = [] /\
     second.2 = [spike_alert rt2 first.1 0 (active_campaign 3) 31]).
Proof.
  split; [|split].
  - intros rt self pre campaign Hactive. cbv zeta.
    rewrite check_campaign_snoc.
    destruct (check_campaign_performance_alerts self rt pre) as [s alerts].
    destruct (check_campaign_body_active rt s alerts campaign Hactive) as [Hm Ha].
    cbv zeta in Hm, Ha. rewrite Hm, Ha, lookup_insert_eq. simpl.
    split; [done|].
    destruct (previous_campaign_metrics s !! campaign_id campaign) as [prev|]; [|done].
    set (pct := percentage_change (obs_avg_engagement_rate prev)
                  (avg_engagement_rate campaign)).
    destruct (percentage_change_cases (obs_avg_engagement_rate prev)
                (avg_engagement_rate campaign)) as (Hnz & Hup & Hzero).
    fold pct in Hnz, Hup, Hzero.
    split; [done|]. split; [done|]. split; [|split; [|split; [|split; [|split; [|split]]]]].
    + intros ->. done.
    + intros Hdrop.
      destruct (CAMPAIGN_ENGAGEMENT_SPIKE_PERCENTAGE <=? pct)%float eqn:E.
      * apply spike_not_drop in E. congruence.
      * by rewrite Hdrop.
    + intros -> ->. done.
    + repeat case_match; rewrite ?length_app; simpl; lia.
    + done.
    + intros H1 H2. destruct (Hup H1 H2) as [_ ->]. done.
    + intros H1 H2. destruct (Hzero H1 H2) as (H0 & -> & ->). done.
  - intros user analyzer rt1 rt2. cbv zeta. split; reflexivity.
  - intros user analyzer rt1 rt2. cbv zeta. split; reflexivity.
Qed.

Lemma campaign_tracker_alerts_witness :
  let self := new_AlertingService "test_user_123" None in
  let before := check_campaign_performance_alerts self sample_runtime
                  [active_campaign 2.5] in
  let after := check_campaign_performance_alerts self sample_runtime
                 ([active_campaign 2.5] ++ [active_campaign 4]) in
  previous_campaign_metrics after.1 !! "camp001"
  = Some {| obs_avg_engagement_rate := 4; obs_total_likes := 0;
            obs_timestamp := utcnow sample_runtime |} /\
  after.2 = [spike_alert sample_runtime before.1 0 (active_campaign 4) 60].
Proof.
  pose proof (proj1 campaign_tracker_alerts sample_runtime
                (new_AlertingService "test_user_123" None)
                [active_campaign 2.5] (active_campaign 4) eq_refl) as [H1 H2].
  split; [exact H1|].
  exact (proj1 (proj2 (proj2 H2)) eq_refl).
Defined.

(** ** The sentiment surge detector *)

(** With no negative post the threshold test fails. *)
Lemma surge_test_zero (n_posts : nat) :
  (0 < n_posts)%nat -> surge_test 0 n_posts = false.
Proof. intros H. destruct n_posts; [lia|]. reflexivity. Qed.

(** Up to 200 posts, the test on the percentage is the test on the fraction
    and the test on the exact quotient. *)
Lemma surge_test_agrees (negative n_posts : nat) :
  (n_posts <= 200)%nat -> (negative <= n_posts)%nat -> (0 < n_posts)%nat ->
  surge_test negative n_posts = surge_test_fraction negative n_posts /\
  surge_test_fraction negative n_posts = surge_test_exact negative n_posts.
Proof.
  intros Hn Hk Hpos.
  assert (Hall : forallb (fun n =>
                   forallb (fun k =>
                     Bool.eqb (surge_test k n) (surge_test_fraction k n)
                     && Bool.eqb (surge_test_fraction k n) (surge_test_exact k n))
                     (seq 0 (S n)))
                   (seq 1 200) = true) by (vm_compute; reflexivity).
  rewrite forallb_forall in Hall.
  specialize (Hall n_posts ltac:(apply in_seq; lia)).
  rewrite forallb_forall in Hall.
  specialize (Hall negative ltac:(apply in_seq; lia)).
  apply andb_true_iff in Hall as [H1 H2].
  apply Bool.eqb_prop in H1, H2. done.
Qed.




(** * Further properties *)

(** ** Status derivation *)

(** Boolean comparisons on [Z] in the hypotheses, as propositions. *)
Ltac Z_cmp_to_prop :=
  repeat match goal with
         | H : (_ <? _) = true |- _ => apply Z.ltb_lt in H
         | H : (_ <? _) = false |- _ => apply Z.ltb_ge in H
         | H : (_ <=? _) = true |- _ => apply Z.leb_le in H
         | H : (_ <=? _) = false |- _ => apply Z.leb_gt in H
         end.

Lemma update_status_unfold (self : Campaign) (now : option datetime) (clock : datetime) :
  update_status self now clock
  = let ct := effective_time now clock in
    if date_and (end_date self) (fun e => e <? ct) then set_status self "Finished"
    else if date_and (start_date self) (fun s => s <=? ct) then set_status self "Active"
    else if date_and (start_date self) (fun s => ct <? s) then set_status self "Planning"
    else self.
Proof.
  unfold update_status, _update_status_logic, effective_time.
  destruct now as [t|]; [destruct (tzinfo t) | destruct (tzinfo clock)]; reflexivity.
Qed.

Lemma set_status_dates (self : Campaign) (s : string) :
  start_date (set_status self s) = start_date self /\
  end_date (set_status self s) = end_date self /\
  status (set_status self s) = s.
Proof. done. Qed.

Lemma set_status_twice (self : Campaign) (s1 s2 : string) :
  set_status (set_status self s1) s2 = set_status self s2.
Proof. done. Qed.

Lemma set_status_same (self : Campaign) : set_status self (status self) = self.
Proof. by destruct self. Qed.

(** X1.  The status after [update_status] is decided by the dates and the
    wall-clock reading of the time alone: [Finished] once the end date has
    passed, else [Active] from the start date on, else [Planning] before it;
    a campaign without start date whose end has not passed is left as it is.
    With a start date the earlier status plays no part, so an update at an
    earlier time can take a [Finished] campaign back; updating twice at the
    same time changes nothing more; and the offset of an aware time is
    dropped, not applied. *)
Theorem update_status_by_dates (self : Campaign) (now : option datetime)
    (clock : datetime) :
  let ct := effective_time now clock in
  let c' := update_status self now clock in
  (forall e, end_date self = Some e -> e < ct -> status c' = "Finished") /\
  (forall s, start_date self = Some s -> (forall e, end_date self = Some e -> ct <= e) ->
     s <= ct -> status c' = "Active") /\
  (forall s, start_date self = Some s -> (forall e, end_date self = Some e -> ct <= e) ->
     ct < s -> status c' = "Planning") /\
  (start_date self = None -> (forall e, end_date self = Some e -> ct <= e) -> c' = self) /\
  (forall now0 clock0, is_Some (start_date self) ->
     update_status (update_status self now0 clock0) now clock = c') /\
  update_status c' now clock = c' /\
  (forall w off, update_status self (Some (mk_datetime w (Some off))) clock
                 = update_status self (Some (mk_datetime w None)) clock).
Proof.
  cbv zeta. rewrite !update_status_unfold. cbv zeta.
  set (ct := effective_time now clock).
  split; [|split; [|split; [|split; [|split; [|split]]]]].
  - intros e He Hlt. rewrite He. simpl. apply Z.ltb_lt in Hlt. by rewrite Hlt.
  - intros s Hs Hopen Hle. rewrite Hs. simpl.
    destruct (end_date self) as [e|]; simpl.
    + specialize (Hopen e eq_refl). destruct (Z.ltb_spec e ct); [lia|].
      apply Z.leb_le in Hle. by rewrite Hle.
    + apply Z.leb_le in Hle. by rewrite Hle.
  - intros s Hs Hopen Hlt. rewrite Hs. simpl.
    assert (Hle : (s <=? ct) = false) by (apply Z.leb_gt; lia).
    apply Z.ltb_lt in Hlt. rewrite Hle, Hlt.
    destruct (end_date self) as [e|]; simpl; [|done].
    specialize (Hopen e eq_refl). destruct (Z.ltb_spec e ct); [lia|done].
  - intros Hs Hopen. rewrite Hs. simpl.
    destruct (end_date self) as [e|]; simpl; [|done].
    specialize (Hopen e eq_refl). destruct (Z.ltb_spec e ct); [lia|done].
  - intros now0 clock0 [s Hs]. rewrite !update_status_unfold. cbv zeta.
    fold ct. generalize (effective_time now0 clock0). intros ct0.
    destruct self as [cid uid nm sd ed kws tags accts st tp tl ts tc tr rate ids].
    simpl in Hs. subst sd. simpl.
    destruct ed as [e|]; simpl;
      repeat (case_match; simpl in *; try done); try reflexivity.
    all: exfalso; Z_cmp_to_prop; lia.
  - destruct self as [cid uid nm sd ed kws tags accts st tp tl ts tc tr rate ids].
    simpl. destruct ed as [e|], sd as [s|]; simpl;
      repeat (case_match; simpl in *; try done); try reflexivity.
    all: exfalso; Z_cmp_to_prop; lia.
  - intros w off. by rewrite !update_status_unfold.
Qed.

Lemma update_status_by_dates_witness :
  let late := Some (mk_datetime 150 (Some 0)) in
  let early := Some (mk_datetime 50 None) in
  status (update_status sample_campaign late sample_clock) = "Finished" /\
  status (update_status (update_status sample_campaign late sample_clock)
            early sample_clock) = "Active".
Proof.
  cbv zeta. split.
  - apply (proj1 (update_status_by_dates sample_campaign
                    (Some (mk_datetime 150 (Some 0))) sample_clock) 100 eq_refl).
    reflexivity.
  - destruct (update_status_by_dates sample_campaign (Some (mk_datetime 50 None))
                sample_clock) as (_ & Hactive & _ & _ & Hhist & _).
    rewrite Hhist by (by eexists).
    apply (Hactive 0 eq_refl).
    + intros e [= <-]. unfold effective_time. simpl. lia.
    + unfold effective_time. simpl. lia.
Defined.

(** ** The aggregator: frame, overwrite, order *)

Lemma update_status_setup (self : Campaign) (now : option datetime) (clock : datetime) :
  campaign_setup (update_status self now clock) = campaign_setup self.
Proof.
  rewrite update_status_unfold. cbv zeta. repeat case_match; reflexivity.
Qed.

Lemma update_status_keeps_metrics (self : Campaign) (now : option datetime)
    (clock : datetime) :
  campaign_metrics (update_status self now clock) = campaign_metrics self.
Proof.
  rewrite update_status_unfold. cbv zeta. repeat case_match; reflexivity.
Qed.

Lemma update_metrics_setup (self : Campaign) (clock : datetime)
    (posts : list SocialMediaPost) :
  campaign_setup (update_metrics self clock posts) = campaign_setup self.
Proof.
  destruct posts as [|p posts]; [reflexivity|].
  unfold update_metrics. by rewrite update_status_setup.
Qed.

(** The metrics block written by [update_metrics], as a function of the
    posts alone. *)
Lemma update_metrics_block (self : Campaign) (clock : datetime)
    (posts : list SocialMediaPost) :
  campaign_metrics (update_metrics self clock posts)
  = campaign_metrics (update_metrics (new_Campaign "" "" "" None None [] [] [])
                        clock posts).
Proof.
  destruct posts as [|p posts]; [reflexivity|].
  unfold update_metrics. by rewrite !update_status_keeps_metrics.
Qed.

Lemma campaign_ext (a b : Campaign) :
  campaign_setup a = campaign_setup b -> campaign_metrics a = campaign_metrics b ->
  status a = status b -> a = b.
Proof.
  destruct a, b. unfold campaign_setup, campaign_metrics. simpl.
  intros [= -> -> -> -> -> -> -> ->] [= -> -> -> -> -> -> ->] ->. reflexivity.
Qed.

Lemma update_metrics_status (self : Campaign) (clock : datetime)
    (posts : list SocialMediaPost) :
  status (update_metrics self clock posts)
  = match posts with
    | [] => status self
    | _ :: _ => status (update_status self None clock)
    end.
Proof.
  destruct posts as [|p posts]; [reflexivity|].
  unfold update_metrics. rewrite !update_status_unfold. cbv zeta. simpl.
  repeat case_match; reflexivity.
Qed.

Lemma update_status_idem (self : Campaign) (now : option datetime) (clock : datetime) :
  update_status (update_status self now clock) now clock = update_status self now clock.
Proof.
  rewrite !update_status_unfold. cbv zeta. generalize (effective_time now clock).
  intros ct.
  destruct self as [cid uid nm sd ed kws tags accts st tp tl ts tc tr rate ids].
  simpl. destruct ed as [e|], sd as [s|]; simpl;
    repeat (case_match; simpl in *; try done); try reflexivity.
  all: exfalso; Z_cmp_to_prop; lia.
Qed.

Lemma update_status_status_indep (a b : Campaign) (now : option datetime)
    (clock : datetime) :
  start_date a = start_date b -> end_date a = end_date b -> status a = status b ->
  status (update_status a now clock) = status (update_status b now clock).
Proof.
  intros Hs He Hst. rewrite !update_status_unfold. cbv zeta. rewrite Hs, He.
  repeat case_match; done.
Qed.


Lemma foldl_add_shift (a : Z) (l : list Z) : foldl Z.add a l = a + foldl Z.add 0 l.
Proof.
  revert a. induction l as [|x l IH]; intros a; simpl; [lia|].
  rewrite (IH (a + x)), (IH (0 + x)). lia.
Qed.

Lemma sum_present_cons (f : SocialMediaPost -> option Z) (post : SocialMediaPost)
    (posts : list SocialMediaPost) :
  sum_present f (post :: posts) = default 0 (f post) + sum_present f posts.
Proof.
  unfold sum_present. simpl. destruct (f post) as [x|]; simpl; [|done].
  by rewrite foldl_add_shift.
Qed.

Lemma sum_present_sum_or_zero (f : SocialMediaPost -> option Z)
    (posts : list SocialMediaPost) :
  sum_present f posts = sum_or_zero f posts.
Proof.
  induction posts as [|p posts IH]; [done|].
  rewrite sum_present_cons, IH. done.
Qed.

Lemma sum_or_zero_perm (f : SocialMediaPost -> option Z)
    (posts posts' : list SocialMediaPost) :
  posts ≡ₚ posts' -> sum_or_zero f posts = sum_or_zero f posts'.
Proof.
  induction 1; simpl; lia.
Qed.



(** ** The matcher: what is matched, and how matching composes *)

(** The cascade of tests in the loop body is a disjunction. *)
Lemma matches_criteria_orb (campaign : Campaign) (post : SocialMediaPost) :
  matches_criteria campaign post
  = bool_decide (account_id post ∈ tracked_accounts campaign)
    || existsb (fun keyword =>
                  PyStr.contains (PyStr.lower keyword) (post_content_lower post))
         (tracked_keywords campaign)
    || existsb (fun hashtag =>
                  PyStr.contains ("#" +:+ PyStr.lower hashtag) (post_content_lower post))
         (tracked_hashtags campaign).
Proof.
  unfold matches_criteria. fold (post_content_lower post). cbv zeta.
  rewrite nonempty_elem_of.
  destruct (bool_decide (account_id post ∈ tracked_accounts campaign)); [done|].
  simpl. destruct (tracked_keywords campaign) as [|k ks]; simpl.
  - by destruct (tracked_hashtags campaign).
  - destruct (_ || _); simpl; [done|]. by destruct (tracked_hashtags campaign).
Qed.

Lemma date_filter_window (campaign : Campaign) (t : Z) :
  date_filter campaign t = true <-> in_window campaign t.
Proof.
  unfold date_filter, in_window.
  destruct (start_date campaign) as [s|], (end_date campaign) as [e|]; simpl;
    repeat case_match; Z_cmp_to_prop; split; try done.
  all: try (intros _; split; intros ? [= <-]; lia).
  all: try (intros _; split; intros ? [=]).
  all: intros [H1 H2]; first [specialize (H1 _ eq_refl) | idtac];
    first [specialize (H2 _ eq_refl) | idtac]; lia.
Qed.

Lemma lower_ascii_idem (a : ascii) :
  PyStr.lower_ascii (PyStr.lower_ascii a) = PyStr.lower_ascii a.
Proof. destruct a as [[] [] [] [] [] [] [] []]; reflexivity. Qed.

Lemma lower_idem (s : string) : PyStr.lower (PyStr.lower s) = PyStr.lower s.
Proof. induction s as [|a s IH]; simpl; [done|]. by rewrite lower_ascii_idem, IH. Qed.

Lemma existsb_fmap {A B} (f : B -> bool) (g : A -> B) (l : list A) :
  existsb f (g <$> l) = existsb (fun x => f (g x)) l.
Proof. induction l as [|x l IH]; [done|]. simpl. f_equal. exact IH. Qed.

Lemma omap_as_post_fmap (l : list SocialMediaPost) : omap as_post (PyPost <$> l) = l.
Proof. induction l as [|p l IH]; [done|]. simpl. f_equal. exact IH. Qed.

Lemma omap_as_campaign_fmap (l : list Campaign) : omap as_campaign (PyCampaign <$> l) = l.
Proof. induction l as [|p l IH]; [done|]. simpl. f_equal. exact IH. Qed.

Section MatcherComposition.

Variable fromtimestamp_int : Z -> datetime.
Variable fromtimestamp_float : float -> datetime.
Variable fromisoformat : string -> option datetime.

#[local] Abbreviation normalize :=
  (normalize_timestamp fromtimestamp_int fromtimestamp_float fromisoformat).
#[local] Abbreviation relevant_to :=
  (relevant fromtimestamp_int fromtimestamp_float fromisoformat).
#[local] Abbreviation get_posts :=
  (get_posts_for_campaign fromtimestamp_int fromtimestamp_float fromisoformat).
#[local] Abbreviation process :=
  (process_campaigns fromtimestamp_int fromtimestamp_float fromisoformat).

Lemma relevant_iff (campaign : Campaign) (post : SocialMediaPost) :
  relevant_to campaign post = true <->
  (exists t, normalize (timestamp post) = Some t /\ in_window campaign t) /\
  (account_id post ∈ tracked_accounts campaign \/
   (exists keyword, keyword ∈ tracked_keywords campaign /\
      PyStr.contains (PyStr.lower keyword) (post_content_lower post) = true) \/
   (exists hashtag, hashtag ∈ tracked_hashtags campaign /\
      PyStr.contains ("#" +:+ PyStr.lower hashtag) (post_content_lower post) = true)).
Proof.
  unfold relevant. rewrite <- !existsb_elem_of.
  destruct (normalize (timestamp post)) as [t|].
  - rewrite andb_true_iff, date_filter_window, matches_criteria_orb.
    rewrite !orb_true_iff, bool_decide_eq_true.
    split.
    + intros [Hw Hm]. split; [eauto|tauto].
    + intros [(t' & [= <-] & Hw) Hm]. tauto.
  - split; [done|]. by intros [(t & Ht & _) _].
Qed.



(** X6.  Matching is case-insensitive on ASCII text: whether a post meets
    the content/account filter depends on the tracked keywords and hashtags
    and on the post's text only through their lower-cased forms (and
    lower-casing twice is lower-casing once), while accounts are compared
    exactly. *)
Theorem matching_ignores_case (c c' : Campaign) (p p' : SocialMediaPost) :
  (tracked_accounts c = tracked_accounts c' ->
   PyStr.lower <$> tracked_keywords c = PyStr.lower <$> tracked_keywords c' ->
   PyStr.lower <$> tracked_hashtags c = PyStr.lower <$> tracked_hashtags c' ->
   account_id p = account_id p' ->
   post_content_lower p = post_content_lower p' ->
   matches_criteria c p = matches_criteria c' p') /\
  (forall s, PyStr.lower (PyStr.lower s) = PyStr.lower s).
Proof.
  split; [|apply lower_idem].
  intros Ha Hk Hh Hacc Hc. rewrite !matches_criteria_orb, Ha, Hacc, Hc.
  rewrite <- (existsb_fmap (fun k => PyStr.contains k (post_content_lower p'))
                PyStr.lower (tracked_keywords c)).
  rewrite <- (existsb_fmap (fun h => PyStr.contains ("#" +:+ h) (post_content_lower p'))
                PyStr.lower (tracked_hashtags c)).
  rewrite Hk, Hh, !existsb_fmap. done.
Qed.

End MatcherComposition.

Lemma matching_ignores_case_witness :
  let shouting := new_Campaign "camp001" "user001" "New Year Promo" (Some 0) (Some 100)
                    ["SPECIAL Offer"] ["Promo"] ["twitter:MyBrandAccount"] in
  let loud := sample_post "p1" (Some "Our #PROMO special OFFER") 10 None None None None in
  let quiet := sample_post "p1" (Some "our #promo special offer") 10 None None None None in
  matches_criteria shouting loud = matches_criteria sample_campaign quiet.
Proof.
  cbv zeta.
  apply (proj1 (matching_ignores_case _ _ _ _)); reflexivity.
Defined.

(** ** [process_campaigns] on a list of campaigns *)

Lemma process_loop_lookup fti ftf fiso (clock : nat -> datetime)
    (campaign_list : list Campaign) (all_social_posts : pyobj) (i : nat) :
  exists updated,
    process_loop fti ftf fiso clock i campaign_list all_social_posts = Return updated /\
    length updated = length campaign_list /\
    forall j campaign, campaign_list !! j = Some campaign ->
      exists matched,
        get_posts_for_campaign fti ftf fiso (PyCampaign campaign) all_social_posts
        = Return matched /\
        updated !! j = Some (update_metrics campaign (clock (i + j)%nat) matched).
Proof.
  revert i. induction campaign_list as [|c l IH]; intros i.
  - exists []. repeat split. intros j c Hj. by rewrite lookup_nil in Hj.
  - destruct (get_posts_for_campaign_returns fti ftf fiso (PyCampaign c) all_social_posts)
      as [m Hm].
    destruct (IH (S i)) as (u & Hu & Hlen & Hall).
    exists (update_metrics c (clock i) m :: u).
    split; [|split].
    + simpl in *. rewrite Hm. simpl. rewrite Hu. reflexivity.
    + simpl. by rewrite Hlen.
    + intros [|j] c' Hj; simpl in Hj.
      * simplify_eq. exists m. split; [done|]. simpl. by rewrite Nat.add_0_r.
      * destruct (Hall j c' Hj) as (m' & Hm' & Hlk). exists m'. split; [done|].
        simpl. rewrite Hlk. do 2 f_equal. f_equal. lia.
Qed.



(** ** The trend tracker: frame, alerts, repeated calls *)

(** What one pass of the loop body does. *)
Lemma check_trend_body_cases (rt : runtime) (self : AlertingService)
    (alerts : list Alert) (td : trend_data) :
  let st' := check_trend_body rt (self, alerts) td in
  (PyStr.truthy (term td) = false /\ st' = (self, alerts)) \/
  (exists t,
     term td = Some t /\ t <> "" /\
     st'.1 = set_seen_trends self
               (<[t := {| volume := default 0 (count td);
                          trend_timestamp := utcnow rt |}]> (seen_trends self)) /\
     (st'.2 = alerts \/
      exists a,
        st'.2 = (alerts ++ [a])%list /\
        alert_header rt (service_user_id self) (length alerts) a /\
        is_trend_alert [td] a /\
        match seen_trends self !! t with
        | None => severity a = "info"
        | Some seen =>
            severity a = "warning" /\
            TREND_VELOCITY_THRESHOLD <= default 0 (count td) - volume seen
        end)).
Proof.
  cbv zeta. unfold check_trend_body.
  destruct (term td) as [[|c t]|] eqn:Ht; [by left | | by left].
  right. exists (String c t). split; [done|]. split; [done|].
  destruct (seen_trends self !! String c t) as [seen|] eqn:Hseen.
  - split; [done|]. simpl.
    destruct (TREND_VELOCITY_THRESHOLD <=? _) eqn:E1; simpl; [|by left].
    destruct (TREND_VOLUME_THRESHOLD <=? _) eqn:E2; simpl; [|by left].
    right. eexists. split; [reflexivity|]. Z_cmp_to_prop.
    split; [done|]. split; [|done].
    split; [done|]. split; [by right|].
    exists td, (String c t). repeat split; try done. by left.
  - split; [done|]. simpl.
    destruct (TREND_VOLUME_THRESHOLD <=? _) eqn:E2; simpl; [|by left].
    right. eexists. split; [reflexivity|]. Z_cmp_to_prop.
    split; [done|]. split; [|done].
    split; [done|]. split; [by left|].
    exists td, (String c t). repeat split; try done. by left.
Qed.

Lemma subseteq_snoc_l {A} (l : list A) (x : A) : l ⊆ (l ++ [x])%list.
Proof. intros y Hy. apply elem_of_app. by left. Qed.

Lemma subseteq_snoc_r {A} (l : list A) (x : A) : [x] ⊆ (l ++ [x])%list.
Proof. intros y Hy. apply elem_of_app. by right. Qed.

Lemma is_trend_alert_mono (l l' : list trend_data) (a : Alert) :
  l ⊆ l' -> is_trend_alert l a -> is_trend_alert l' a.
Proof.
  intros Hsub (H1 & H2 & td & t & Hin & H3). split; [done|]. split; [done|].
  exists td, t. split; [by apply Hsub | done].
Qed.

Lemma check_trend_alerts_inv (rt : runtime) (self : AlertingService)
    (l : list trend_data) :
  let r := check_trend_alerts self rt l in
  r.1 = set_seen_trends self (seen_trends r.1) /\
  (forall k a, r.2 !! k = Some a ->
     alert_header rt (service_user_id self) k a /\ is_trend_alert l a) /\
  (length r.2 <= length (filter (fun td => loud_entry td = true) l))%nat.
Proof.
  cbv zeta. unfold check_trend_alerts.
  induction l as [|td l IH] using rev_ind.
  - simpl. split; [by destruct self|]. split; [|done]. intros k a Hk.
    by rewrite lookup_nil in Hk.
  - rewrite foldl_snoc, filter_app, length_app.
    destruct (foldl (check_trend_body rt) (self, []) l) as [s alerts].
    destruct IH as (Hs & Hall & Hlen). simpl in Hs, Hall, Hlen.
    assert (Huser : service_user_id s = service_user_id self) by (by rewrite Hs).
    destruct (check_trend_body_cases rt s alerts td) as [[Hno Heq]|(t & Ht & Hne & H1 & H2)];
      cbv zeta in *.
    + rewrite Heq. simpl. split; [done|]. split; [|lia].
      intros k a Hk. destruct (Hall k a Hk) as [Hh Ha]. split; [done|].
      eapply is_trend_alert_mono; [apply subseteq_snoc_l|done].
    + split; [|split].
      * rewrite H1. rewrite Hs. done.
      * intros k a Hk. destruct H2 as [H2|(a' & H2 & Hh & Ha & _)]; rewrite H2 in Hk.
        -- destruct (Hall k a Hk) as [Hh Ha]. split; [done|].
           eapply is_trend_alert_mono; [apply subseteq_snoc_l|done].
        -- apply lookup_app_Some in Hk as [Hk|[Hge Hk]].
           ++ destruct (Hall k a Hk) as [Hh' Ha']. split; [done|].
              eapply is_trend_alert_mono; [apply subseteq_snoc_l|done].
           ++ destruct (k - length alerts)%nat as [|n] eqn:En; simpl in Hk; [|done].
              simplify_eq. assert (k = length alerts) as -> by lia.
              rewrite Huser in Hh. split; [done|].
              eapply is_trend_alert_mono; [apply subseteq_snoc_r|done].
      * destruct H2 as [H2|(a' & H2 & _ & Ha & _)]; rewrite H2; [lia|].
        rewrite length_app. simpl.
        destruct Ha as (_ & _ & td' & t' & Hin & Ht' & Hne' & _ & Hbig).
        apply list_elem_of_singleton in Hin as ->.
        rewrite filter_cons, filter_nil.
        destruct (decide (loud_entry td = true)) as [_|Hn]; [simpl; lia|].
        exfalso. apply Hn. unfold loud_entry. rewrite Ht'.
        apply Z.leb_le in Hbig. rewrite Hbig. by destruct t'.
Qed.

Lemma latest_count_None (t : string) (l : list trend_data) :
  latest_count t l = None <-> forall td, td ∈ l -> term td <> Some t.
Proof.
  induction l as [|td l IH]; simpl.
  - split; [|done]. intros _ td Htd. by apply not_elem_of_nil in Htd.
  - destruct (latest_count t l) as [n|].
    + split; [done|]. intros H. exfalso.
      assert (Hl : forall td', td' ∈ l -> term td' <> Some t)
        by (intros td' Htd'; apply H; by right).
      apply IH in Hl. done.
    + case_bool_decide as E.
      * split; [done|]. intros H. exfalso. apply (H td); [by left|done].
      * split; [|done]. intros _ td' Htd'. apply elem_of_cons in Htd' as [->|Htd']; [done|].
        by apply (proj1 IH).
Qed.

Lemma latest_count_Some (t : string) (l : list trend_data) (n : Z) :
  latest_count t l = Some n ->
  exists td, td ∈ l /\ term td = Some t /\ n = default 0 (count td).
Proof.
  induction l as [|td l IH]; simpl; [done|].
  destruct (latest_count t l) as [m|].
  - intros [= <-]. destruct (IH eq_refl) as (td' & Hin & Ht & Hn).
    exists td'. split; [by right|done].
  - case_bool_decide as E; [|done]. intros [= <-]. exists td. split; [by left|done].
Qed.

Lemma foldl_trend_lookup_blank (rt : runtime) (l : list trend_data)
    (st : AlertingService * list Alert) :
  seen_trends (foldl (check_trend_body rt) st l).1 !! "" = seen_trends st.1 !! "".
Proof.
  revert st. induction l as [|td l IH]; intros st; simpl; [done|].
  rewrite IH. destruct st as [s alerts].
  destruct (check_trend_body_cases rt s alerts td) as [[_ ->]|(t & _ & Hne & -> & _)];
    [done|].
  simpl. by rewrite lookup_insert_ne.
Qed.

(** X8.  A call of [check_trend_alerts] changes nothing of the service but
    [seen_trends]; there it leaves alone every term that does not occur in
    the input, never stores the empty term and never drops an observation:
    afterwards a term is observed exactly when it was before or occurs,
    non-empty, in the input. *)
Theorem trend_tracker_frame (self : AlertingService) (rt : runtime)
    (current_trends : list trend_data) :
  let r := check_trend_alerts self rt current_trends in
  service_user_id r.1 = service_user_id self /\
  previous_campaign_metrics r.1 = previous_campaign_metrics self /\
  ai_analyzer r.1 = ai_analyzer self /\
  (forall t, (forall td, td ∈ current_trends -> term td <> Some t) ->
     seen_trends r.1 !! t = seen_trends self !! t) /\
  seen_trends r.1 !! "" = seen_trends self !! "" /\
  (forall t, is_Some (seen_trends r.1 !! t) <->
     is_Some (seen_trends self !! t) \/
     (t <> "" /\ exists td, td ∈ current_trends /\ term td = Some t)).
Proof.
  cbv zeta.
  destruct (check_trend_alerts_inv rt self current_trends) as (Hs & _ & _).
  cbv zeta in Hs.
  assert (Hblank : seen_trends (check_trend_alerts self rt current_trends).1 !! ""
                   = seen_trends self !! "")
    by apply foldl_trend_lookup_blank.
  split; [by rewrite Hs|]. split; [by rewrite Hs|]. split; [by rewrite Hs|].
  split; [|split; [done|]].
  - intros t Hno. destruct (decide (t = "")) as [->|Hne]; [done|].
    unfold check_trend_alerts. rewrite foldl_trend_lookup by done.
    apply latest_count_None in Hno. by rewrite Hno.
  - intros t. destruct (decide (t = "")) as [->|Hne].
    + rewrite Hblank. split; [by left|]. by intros [H|[H _]].
    + unfold check_trend_alerts. rewrite foldl_trend_lookup by done. simpl.
      destruct (latest_count t current_trends) as [n|] eqn:E.
      * apply latest_count_Some in E as (td & Hin & Ht & _).
        split; [|by eexists]. intros _. right. split; [done|]. by exists td.
      * split; [by left|]. intros [H|[_ (td & Hin & Ht)]]; [done|].
        exfalso. by apply (proj1 (latest_count_None t current_trends) E td).
Qed.

Lemma trend_tracker_frame_witness :
  let self := set_seen_trends (new_AlertingService "test_user_123" None)
                {[ "#LagosFashionWeek" :=
                     {| volume := 70; trend_timestamp := mk_datetime 0 None |} ]} in
  seen_trends (check_trend_alerts self sample_runtime
                 [trend "#NaijaTechNow" 150; trend "#FintechFriday" 30]).1
    !! "#LagosFashionWeek"
  = Some {| volume := 70; trend_timestamp := mk_datetime 0 None |}.
Proof.
  cbv zeta.
  destruct (trend_tracker_frame
              (set_seen_trends (new_AlertingService "test_user_123" None)
                 {[ "#LagosFashionWeek" :=
                      {| volume := 70; trend_timestamp := mk_datetime 0 None |} ]})
              sample_runtime [trend "#NaijaTechNow" 150; trend "#FintechFriday" 30])
    as (_ & _ & _ & Hother & _).
  rewrite Hother; [reflexivity|].
  intros td Htd. repeat (apply elem_of_cons in Htd as [->|Htd]; [discriminate|]).
  by apply not_elem_of_nil in Htd.
Defined.

(** X9.  The alerts of a call of [check_trend_alerts]: the [k]-th one
    carries the [k]-th identifier and creation time of the call and the
    service's user, is unread, and is a [new_trend]/[info] or a
    [trend_velocity_spike]/[warning] alert about a non-empty term of the
    input whose count is at least the volume threshold; there are at most as
    many alerts as such entries, and none at all when every count is below
    the threshold. *)
Theorem trend_alerts_shape (self : AlertingService) (rt : runtime)
    (current_trends : list trend_data) :
  let r := check_trend_alerts self rt current_trends in
  (forall k a, r.2 !! k = Some a ->
     alert_header rt (service_user_id self) k a /\ is_trend_alert current_trends a) /\
  (length r.2 <= length (filter (fun td => loud_entry td = true) current_trends))%nat /\
  (length r.2 <= length current_trends)%nat /\
  ((forall td, td ∈ current_trends -> default 0 (count td) < TREND_VOLUME_THRESHOLD) ->
   r.2 = []).
Proof.
  cbv zeta.
  destruct (check_trend_alerts_inv rt self current_trends) as (_ & Hall & Hlen).
  cbv zeta in Hall, Hlen.
  split; [done|]. split; [done|]. split.
  - etrans; [exact Hlen|]. apply length_filter.
  - intros Hlow.
    rewrite (filter_none (fun td => loud_entry td = true)) in Hlen.
    + simpl in Hlen. apply length_zero_iff_nil. lia.
    + intros td Htd. specialize (Hlow td Htd). unfold loud_entry.
      apply Z.leb_gt in Hlow. rewrite Hlow, andb_false_r. done.
Qed.

Lemma trend_alerts_shape_witness :
  (check_trend_alerts (new_AlertingService "test_user_123" None) sample_runtime
     [trend "#LagosFashionWeek" 80; trend "#FintechFriday" 30]).2 = [].
Proof.
  apply (proj2 (proj2 (proj2 (trend_alerts_shape
                 (new_AlertingService "test_user_123" None) sample_runtime
                 [trend "#LagosFashionWeek" 80; trend "#FintechFriday" 30])))).
  intros td Htd.
  repeat (apply elem_of_cons in Htd as [->|Htd]; [reflexivity|]).
  by apply not_elem_of_nil in Htd.
Defined.

Lemma trend_quiet_pass (rt : runtime) (l l' : list trend_data)
    (st : AlertingService * list Alert) :
  one_count_per_term l -> l' ⊆ l ->
  (forall td t, td ∈ l -> term td = Some t -> t <> "" ->
     volume <$> seen_trends st.1 !! t = Some (default 0 (count td))) ->
  let st' := foldl (check_trend_body rt) st l' in
  st'.2 = st.2 /\
  (forall td t, td ∈ l -> term td = Some t -> t <> "" ->
     volume <$> seen_trends st'.1 !! t = Some (default 0 (count td))).
Proof.
  intros Hone. revert st. induction l' as [|td l' IH]; intros st Hsub Hinv; [done|].
  simpl. destruct st as [s alerts]. simpl in Hinv.
  assert (Htd : td ∈ l) by (apply Hsub; by left).
  assert (Hsub' : l' ⊆ l) by (intros x Hx; apply Hsub; by right).
  destruct (check_trend_body_cases rt s alerts td) as [[_ Heq]|(t & Ht & Hne & H1 & H2)];
    cbv zeta in *.
  - rewrite Heq. by apply IH.
  - destruct (check_trend_body rt (s, alerts) td) as [s' alerts'] eqn:Eb.
    simpl in H1, H2.
    assert (Hal : alerts' = alerts).
    { destruct H2 as [H2|(a & _ & _ & _ & Hcase)]; [done|]. exfalso.
      specialize (Hinv td t Htd Ht Hne).
      destruct (seen_trends s !! t) as [seen|]; [|done].
      simpl in Hinv. injection Hinv as Hv. destruct Hcase as [_ Hcase].
      rewrite Hv in Hcase. unfold TREND_VELOCITY_THRESHOLD in Hcase. lia. }
    subst alerts'.
    destruct (IH (s', alerts) Hsub') as [Ha Hi].
    + intros td2 t2 Htd2 Ht2 Hne2. simpl. rewrite H1. simpl.
      destruct (decide (t = t2)) as [<-|Hdiff].
      * rewrite lookup_insert_eq. simpl. f_equal. apply Hone; try done. congruence.
      * rewrite lookup_insert_ne by done. by apply Hinv.
    + done.
Qed.

(** X10.  When every term of the input comes with one count, a second call
    with the same input right after the first returns no alert, and the
    stored volumes stay the counts of the input. *)
Theorem trend_repeat_call_quiet (self : AlertingService) (rt rt' : runtime)
    (current_trends : list trend_data) :
  one_count_per_term current_trends ->
  let first := check_trend_alerts self rt current_trends in
  let second := check_trend_alerts first.1 rt' current_trends in
  second.2 = [] /\
  (forall td t, td ∈ current_trends -> term td = Some t -> t <> "" ->
     volume <$> seen_trends second.1 !! t = Some (default 0 (count td))).
Proof.
  intros Hone. cbv zeta.
  apply (trend_quiet_pass rt' current_trends current_trends
           ((check_trend_alerts self rt current_trends).1, [])); try done.
  intros td t Htd Ht Hne. simpl. unfold check_trend_alerts.
  rewrite foldl_trend_lookup by done.
  destruct (latest_count t current_trends) as [n|] eqn:E.
  - apply latest_count_Some in E as (td' & Hin & Ht' & ->). simpl. f_equal.
    apply Hone; try done. congruence.
  - exfalso. by apply (proj1 (latest_count_None t current_trends) E td).
Qed.

Lemma trend_repeat_call_quiet_witness :
  let l := [trend "#NaijaTechNow" 150; trend "#NewHotTopic" 200] in
  let first := check_trend_alerts (new_AlertingService "test_user_123" None)
                 sample_runtime l in
  (check_trend_alerts first.1 sample_runtime l).2 = [].
Proof.
  cbv zeta.
  apply (trend_repeat_call_quiet (new_AlertingService "test_user_123" None)
           sample_runtime sample_runtime
           [trend "#NaijaTechNow" 150; trend "#NewHotTopic" 200]).
  intros td1 td2 H1 H2.
  repeat (apply elem_of_cons in H1 as [->|H1]);
    repeat (apply elem_of_cons in H2 as [->|H2]);
    try (by apply not_elem_of_nil in H1); try (by apply not_elem_of_nil in H2);
    intros H; first [reflexivity | discriminate H].
Defined.

(** ** The campaign tracker: frame, alerts, first evaluation *)

(** What one pass of the loop body does. *)
Lemma check_campaign_body_cases (rt : runtime) (self : AlertingService)
    (alerts : list Alert) (c : Campaign) :
  let st' := check_campaign_body rt (self, alerts) c in
  (status c <> "Active" /\ st' = (self, alerts)) \/
  (status c = "Active" /\
   st'.1 = set_previous_campaign_metrics self
             (<[campaign_id c := observation_of rt c]> (previous_campaign_metrics self)) /\
   (st'.2 = alerts \/
    exists a,
      is_Some (previous_campaign_metrics self !! campaign_id c) /\
      st'.2 = (alerts ++ [a])%list /\
      alert_header rt (service_user_id self) (length alerts) a /\
      is_campaign_alert [c] a)).
Proof.
  cbv zeta. destruct (decide (status c = "Active")) as [Hact|Hin].
  - right. split; [done|].
    destruct (check_campaign_body_active rt self alerts c Hact) as [Hm Ha].
    cbv zeta in Hm, Ha.
    destruct (check_campaign_body rt (self, alerts) c) as [s' alerts'] eqn:Eb.
    simpl in *. split.
    + unfold check_campaign_body in Eb. apply String.eqb_eq in Hact.
      rewrite Hact in Eb. simpl in Eb. by injection Eb as <- _.
    + rewrite Ha. destruct (previous_campaign_metrics self !! campaign_id c) as [prev|];
        [|by left].
      cbv zeta.
      destruct (CAMPAIGN_ENGAGEMENT_SPIKE_PERCENTAGE <=? _)%float;
        [right | destruct (_ <=? CAMPAIGN_ENGAGEMENT_DROP_PERCENTAGE)%float;
                   [right | by left]].
      all: eexists; split; [by eexists|]; split; [reflexivity|]; split; [done|].
      all: split; [done|]; split; [done|]; split; [by (left + right)|].
      all: exists c; split; [by left|done].
  - left. split; [done|]. by apply check_campaign_body_inactive.
Qed.

Lemma is_campaign_alert_mono (l l' : list Campaign) (a : Alert) :
  l ⊆ l' -> is_campaign_alert l a -> is_campaign_alert l' a.
Proof.
  intros Hsub (H1 & H2 & H3 & c & Hin & H4). repeat (split; [done|]).
  exists c. split; [by apply Hsub | done].
Qed.

Lemma active_campaigns_snoc (l : list Campaign) (c : Campaign) :
  active_campaigns (l ++ [c])
  = (active_campaigns l ++ if decide (status c = "Active") then [c] else [])%list.
Proof.
  unfold active_campaigns. rewrite filter_app, filter_cons, filter_nil.
  by destruct (decide (status c = "Active")).
Qed.

Lemma check_campaign_alerts_inv (rt : runtime) (self : AlertingService)
    (l : list Campaign) :
  let r := check_campaign_performance_alerts self rt l in
  r.1 = set_previous_campaign_metrics self (previous_campaign_metrics r.1) /\
  (forall id, id ∉ active_ids l ->
     previous_campaign_metrics r.1 !! id = previous_campaign_metrics self !! id) /\
  (forall id, id ∈ active_ids l -> is_Some (previous_campaign_metrics r.1 !! id)) /\
  (forall k a, r.2 !! k = Some a ->
     alert_header rt (service_user_id self) k a /\ is_campaign_alert l a) /\
  (length r.2 <= length (active_campaigns l))%nat /\
  ((forall id, id ∈ active_ids l -> previous_campaign_metrics self !! id = None) ->
   NoDup (active_ids l) -> r.2 = []).
Proof.
  cbv zeta. induction l as [|c l IH] using rev_ind.
  - simpl. split; [by destruct self|]. split; [done|].
    split; [intros id Hid; by apply not_elem_of_nil in Hid|].
    split; [intros k a Hk; by rewrite lookup_nil in Hk|]. done.
  - rewrite check_campaign_snoc. unfold active_ids. rewrite active_campaigns_snoc.
    rewrite fmap_app, length_app.
    destruct (check_campaign_performance_alerts self rt l) as [s alerts].
    destruct IH as (Hs & Hout & Hin & Hall & Hlen & Hquiet).
    simpl in Hs, Hout, Hin, Hall, Hlen, Hquiet. fold (active_ids l) in *.
    assert (Huser : service_user_id s = service_user_id self) by (by rewrite Hs).
    pose proof (check_campaign_body_cases rt s alerts c) as Hc.
    destruct (check_campaign_body rt (s, alerts) c) as [s' alerts'] eqn:Eb.
    cbv zeta in Hc. simpl in Hc. simpl.
    destruct Hc as [[Hno Heq]|(Hact & H1 & H2)].
    + injection Heq as -> ->. destruct (decide (status c = "Active")); [done|]. simpl.
      rewrite !app_nil_r.
      split; [done|]. split; [done|]. split; [done|]. split; [|split; [lia|done]].
      intros k a Hk. destruct (Hall k a Hk). split; [done|].
      eapply is_campaign_alert_mono; [apply subseteq_snoc_l|done].
    + destruct (decide (status c = "Active")) as [_|]; [|done]. simpl.
      split; [by rewrite H1, Hs|]. split; [|split; [|split; [|split]]].
      * intros id Hid. rewrite H1. simpl.
        rewrite elem_of_app, list_elem_of_singleton in Hid.
        rewrite lookup_insert_ne by (intros Heq; apply Hid; right; by symmetry).
        apply Hout. intros H. apply Hid. by left.
      * intros id Hid. rewrite H1. simpl.
        destruct (decide (campaign_id c = id)) as [<-|Hne].
        -- rewrite lookup_insert_eq. by eexists.
        -- rewrite lookup_insert_ne by done. apply Hin.
           apply elem_of_app in Hid as [Hid|Hid]; [done|].
           apply list_elem_of_singleton in Hid. congruence.
      * intros k a Hk. destruct H2 as [H2|(a' & _ & H2 & Hh & Ha)]; rewrite H2 in Hk.
        -- destruct (Hall k a Hk). split; [done|].
           eapply is_campaign_alert_mono; [apply subseteq_snoc_l|done].
        -- apply lookup_app_Some in Hk as [Hk|[Hge Hk]].
           ++ destruct (Hall k a Hk). split; [done|].
              eapply is_campaign_alert_mono; [apply subseteq_snoc_l|done].
           ++ destruct (k - length alerts)%nat as [|n] eqn:En; simpl in Hk; [|done].
              simplify_eq. assert (k = length alerts) as -> by lia.
              rewrite Huser in Hh. split; [done|].
              eapply is_campaign_alert_mono; [apply subseteq_snoc_r|done].
      * destruct H2 as [H2|(a' & _ & H2 & _)]; rewrite H2; [simpl; lia|].
        rewrite length_app. simpl. lia.
      * intros Hfresh Hnd. apply NoDup_app in Hnd as (Hnd & Hdisj & _).
        assert (Hal : alerts = []).
        { apply Hquiet; [|done]. intros id Hid. apply Hfresh. apply elem_of_app. by left. }
        destruct H2 as [H2|(a' & [obs Hobs] & _)]; [by rewrite H2|]. exfalso.
        rewrite Hout in Hobs.
        -- rewrite Hfresh in Hobs; [done|]. apply elem_of_app. right. by left.
        -- intros Hid. apply (Hdisj _ Hid). by left.
Qed.

Lemma foldl_campaign_skip (rt : runtime) (l : list Campaign)
    (st : AlertingService * list Alert) :
  foldl (check_campaign_body rt) st (active_campaigns l)
  = foldl (check_campaign_body rt) st l.
Proof.
  revert st. induction l as [|c l IH]; intros st; [done|].
  unfold active_campaigns. rewrite filter_cons.
  destruct (decide (status c = "Active")) as [E|E]; simpl.
  - apply IH.
  - rewrite check_campaign_body_inactive by done. apply IH.
Qed.

Lemma campaign_lookup_last (rt : runtime) (self : AlertingService) (l : list Campaign)
    (id : string) :
  previous_campaign_metrics (check_campaign_performance_alerts self rt l).1 !! id
  = match last_active id l with
    | Some c => Some (observation_of rt c)
    | None => previous_campaign_metrics self !! id
    end.
Proof.
  unfold last_active. induction l as [|c l IH] using rev_ind; [done|].
  rewrite check_campaign_snoc, filter_app, filter_cons, filter_nil.
  pose proof (check_campaign_body_cases rt
                (check_campaign_performance_alerts self rt l).1
                (check_campaign_performance_alerts self rt l).2 c) as Hc.
  rewrite <- surjective_pairing in Hc. cbv zeta in Hc.
  destruct Hc as [[Hno ->]|(Hact & -> & _)].
  - rewrite IH. destruct (decide (status c = "Active" /\ campaign_id c = id)) as [[? _]|_];
      [done|]. by rewrite app_nil_r.
  - simpl. destruct (decide (status c = "Active" /\ campaign_id c = id)) as [[_ <-]|Hn].
    + by rewrite lookup_insert_eq, last_snoc.
    + rewrite lookup_insert_ne by (intros Heq; apply Hn; done).
      by rewrite IH, app_nil_r.
Qed.

(** X11.  A call of [check_campaign_performance_alerts] passes over the
    campaigns that are not [Active]: it is the call on the [Active] ones
    alone.  It changes nothing of the service but
    [previous_campaign_metrics], and there the observation of an id is,
    afterwards, that of the last [Active] campaign of the input with this id
    (its rate, its like total, the time of the call), or what it was when
    there is none. *)
Theorem campaign_tracker_frame (self : AlertingService) (rt : runtime)
    (campaigns : list Campaign) :
  let r := check_campaign_performance_alerts self rt campaigns in
  r = check_campaign_performance_alerts self rt (active_campaigns campaigns) /\
  service_user_id r.1 = service_user_id self /\
  seen_trends r.1 = seen_trends self /\
  ai_analyzer r.1 = ai_analyzer self /\
  (forall id,
     previous_campaign_metrics r.1 !! id
     = match last_active id campaigns with
       | Some c => Some (observation_of rt c)
       | None => previous_campaign_metrics self !! id
       end).
Proof.
  cbv zeta.
  destruct (check_campaign_alerts_inv rt self campaigns) as (Hs & _).
  cbv zeta in Hs.
  split; [|split; [by rewrite Hs|split; [by rewrite Hs|split; [by rewrite Hs|]]]].
  - unfold check_campaign_performance_alerts. by rewrite foldl_campaign_skip.
  - apply campaign_lookup_last.
Qed.

(** X12.  The alerts of a call of [check_campaign_performance_alerts]: the
    [k]-th one carries the [k]-th identifier and creation time of the call
    and the service's user, is unread, and is a
    [campaign_performance_change] alert of severity [warning] or [critical]
    about an [Active] campaign of the input; there are at most as many
    alerts as [Active] campaigns. *)
Theorem campaign_alerts_shape (self : AlertingService) (rt : runtime)
    (campaigns : list Campaign) :
  let r := check_campaign_performance_alerts self rt campaigns in
  (forall k a, r.2 !! k = Some a ->
     alert_header rt (service_user_id self) k a /\ is_campaign_alert campaigns a) /\
  (length r.2 <= length (active_campaigns campaigns))%nat /\
  (length r.2 <= length campaigns)%nat.
Proof.
  cbv zeta.
  destruct (check_campaign_alerts_inv rt self campaigns) as (_ & _ & _ & Hall & Hlen & _).
  cbv zeta in Hall, Hlen. split; [done|]. split; [done|].
  etrans; [exact Hlen|]. apply length_filter.
Qed.

Lemma campaign_alerts_shape_witness :
  let self := new_AlertingService "test_user_123" None in
  let first := check_campaign_performance_alerts self sample_runtime
                 [active_campaign 2.5] in
  let second := check_campaign_performance_alerts first.1 sample_runtime
                  [active_campaign 1.5] in
  exists a, second.2 !! 0%nat = Some a /\ alert_id a = "alert_0" /\
            type a = "campaign_performance_change" /\
            related_entity_id a = Some "camp001".
Proof.
  cbv zeta. eexists. split; [reflexivity|].
  match goal with
  | |- alert_id ?a = _ /\ _ =>
      destruct (proj1 (campaign_alerts_shape
                  (check_campaign_performance_alerts
                     (new_AlertingService "test_user_123" None) sample_runtime
                     [active_campaign 2.5]).1 sample_runtime [active_campaign 1.5])
                  0%nat a eq_refl) as [(Hid & _) (Hty & _)]
  end.
  split; [exact Hid|]. split; [exact Hty|]. reflexivity.
Defined.

(** X13.  A first evaluation raises no alert: when no [Active] campaign of
    the input has an observation yet and their ids are distinct, the call
    returns no alert, and each of them has its observation afterwards. *)
Theorem first_evaluation_no_alert (self : AlertingService) (rt : runtime)
    (campaigns : list Campaign) :
  (forall c, c ∈ campaigns -> status c = "Active" ->
     previous_campaign_metrics self !! campaign_id c = None) ->
  NoDup (active_ids campaigns) ->
  let r := check_campaign_performance_alerts self rt campaigns in
  r.2 = [] /\
  (forall c, c ∈ campaigns -> status c = "Active" ->
     previous_campaign_metrics r.1 !! campaign_id c = Some (observation_of rt c)).
Proof.
  intros Hfresh Hnd. cbv zeta.
  destruct (check_campaign_alerts_inv rt self campaigns) as (_ & _ & _ & _ & _ & Hquiet).
  cbv zeta in Hquiet. split.
  - apply Hquiet; [|done]. intros id Hid.
    apply list_elem_of_fmap in Hid as (c & -> & Hc).
    apply list_elem_of_filter in Hc as [Hact Hin]. by apply Hfresh.
  - intros c Hin Hact. rewrite campaign_lookup_last.
    unfold last_active.
    destruct (last (filter _ campaigns)) as [c'|] eqn:El.
    + f_equal. apply last_Some in El as [l' El].
      assert (Hc' : c' ∈ filter (fun c0 => status c0 = "Active"
                                   /\ campaign_id c0 = campaign_id c) campaigns).
      { rewrite El. apply elem_of_app. right. by left. }
      apply list_elem_of_filter in Hc' as [[Hact' Hid'] Hin'].
      assert (Heq : c' = c); [|by rewrite Heq].
      unfold active_ids in Hnd.
      assert (Hinj : forall x y, x ∈ active_campaigns campaigns ->
                       y ∈ active_campaigns campaigns ->
                       campaign_id x = campaign_id y -> x = y).
      { revert Hnd. generalize (active_campaigns campaigns). intros l Hl.
        induction l as [|z l IHl]; intros x y Hx Hy Hxy.
        - by apply not_elem_of_nil in Hx.
        - rewrite fmap_cons in Hl. apply NoDup_cons in Hl as [Hz Hl].
          apply elem_of_cons in Hx as [->|Hx], Hy as [->|Hy]; try done.
          + exfalso. apply Hz. rewrite Hxy. by apply list_elem_of_fmap_2.
          + exfalso. apply Hz. rewrite <- Hxy. by apply list_elem_of_fmap_2.
          + by apply IHl. }
      apply Hinj; try done; apply list_elem_of_filter; done.
    + exfalso. apply last_None in El.
      assert (Hc : c ∈ filter (fun c0 => status c0 = "Active"
                                 /\ campaign_id c0 = campaign_id c) campaigns)
        by (apply list_elem_of_filter; done).
      rewrite El in Hc. by apply not_elem_of_nil in Hc.
Qed.

Lemma first_evaluation_no_alert_witness :
  (check_campaign_performance_alerts (new_AlertingService "test_user_123" None)
     sample_runtime [active_campaign 2.5; bare_campaign]).2 = [].
Proof.
  apply (first_evaluation_no_alert (new_AlertingService "test_user_123" None)
           sample_runtime [active_campaign 2.5; bare_campaign]).
  - intros c _ _. apply lookup_empty.
  - apply (bool_decide_unpack _). vm_compute. exact I.
Defined.

(** ** One cycle: [run_all_checks] *)

(** The campaign check reads and writes nothing of [seen_trends]. *)
Lemma check_campaign_body_seen_frame (rt : runtime) (s : AlertingService)
    (m : gmap string TrendObservation) (alerts : list Alert) (c : Campaign) :
  check_campaign_body rt (set_seen_trends s m, alerts) c
  = (set_seen_trends (check_campaign_body rt (s, alerts) c).1 m,
     (check_campaign_body rt (s, alerts) c).2).
Proof.
  unfold check_campaign_body. destruct (negb _); [done|]. simpl.
  destruct (previous_campaign_metrics s !! campaign_id c); [|done].
  repeat case_match; done.
Qed.

Lemma check_campaign_seen_frame (rt : runtime) (l : list Campaign) (s : AlertingService)
    (m : gmap string TrendObservation) (alerts : list Alert) :
  foldl (check_campaign_body rt) (set_seen_trends s m, alerts) l
  = (set_seen_trends (foldl (check_campaign_body rt) (s, alerts) l).1 m,
     (foldl (check_campaign_body rt) (s, alerts) l).2).
Proof.
  revert s alerts. induction l as [|c l IH]; intros s alerts; [done|].
  cbn [foldl]. rewrite check_campaign_body_seen_frame.
  destruct (check_campaign_body rt (s, alerts) c) as [s1 a1]. cbn [fst snd]. apply IH.
Qed.

Lemma sentiment_loop_acc (self : AlertingService) (crt : cycle_runtime)
    (d : gmap string (list SocialMediaPost)) (l : list Campaign) (i : nat)
    (acc : list Alert) :
  sentiment_loop self crt d i l acc = (acc ++ sentiment_loop self crt d i l [])%list.
Proof.
  revert i acc. induction l as [|c l IH]; intros i acc; simpl.
  - by rewrite app_nil_r.
  - destruct (String.eqb (status c) "Active"); [|apply IH].
    destruct (d !! campaign_id c) as [ps|]; [|apply IH].
    set (found := check_sentiment_alerts _ _ _ _).
    rewrite (IH _ (acc ++ found)%list), (IH _ found). by rewrite app_assoc.
Qed.

(** One call of the detector returns nothing, or one alert. *)
Lemma check_sentiment_alerts_cases (self : AlertingService) (rt : runtime)
    (campaign : Campaign) (campaign_posts : list SocialMediaPost) :
  check_sentiment_alerts self rt campaign campaign_posts = [] \/
  exists a,
    check_sentiment_alerts self rt campaign campaign_posts = [a] /\
    is_Some (ai_analyzer self) /\
    (NEGATIVE_SENTIMENT_POST_COUNT <= length campaign_posts)%nat /\
    alert_header rt (service_user_id self) 0 a /\
    type a = "negative_sentiment_surge" /\ severity a = "critical" /\
    related_entity_type a = Some "campaign" /\
    related_entity_id a = Some (campaign_id campaign).
Proof.
  unfold check_sentiment_alerts.
  destruct (ai_analyzer self) as [an|]; [|by left].
  destruct (length campaign_posts <? NEGATIVE_SENTIMENT_POST_COUNT)%nat eqn:E; [by left|].
  apply Nat.ltb_ge in E.
  destruct (0 <? negative_post_count an campaign_posts)%nat; [|by left].
  destruct (_ <=? _)%float; [|by left].
  right. eexists. split; [reflexivity|]. split; [by eexists|]. done.
Qed.

Lemma sentiment_loop_shape (self : AlertingService) (crt : cycle_runtime)
    (d : gmap string (list SocialMediaPost)) (l : list Campaign) (i : nat) :
  (forall a, a ∈ sentiment_loop self crt d i l [] -> is_sentiment_alert l d a) /\
  (length (sentiment_loop self crt d i l []) <= length (active_campaigns l))%nat /\
  (ai_analyzer self = None -> sentiment_loop self crt d i l [] = []).
Proof.
  revert i. induction l as [|c l IH]; intros i; simpl.
  - split; [|done]. intros a Ha. by apply not_elem_of_nil in Ha.
  - destruct (IH (S i)) as (Hall & Hlen & Hnone).
    assert (Hmono : forall a, is_sentiment_alert l d a -> is_sentiment_alert (c :: l) d a).
    { intros a (H1 & H2 & H3 & H4 & c' & ps & Hin & H5).
      repeat (split; [done|]). exists c', ps. split; [by right|done]. }
    unfold active_campaigns in *. rewrite filter_cons.
    destruct (String.eqb (status c) "Active") eqn:Eact.
    + apply String.eqb_eq in Eact.
      destruct (decide (status c = "Active")) as [_|]; [|done]. simpl.
      destruct (d !! campaign_id c) as [ps|] eqn:Eps.
      * rewrite sentiment_loop_acc.
        destruct (check_sentiment_alerts_cases self (rt_sentiment crt i) c ps)
          as [->|(a0 & -> & Han & Hge & Hh & Hty & Hsev & Hrt & Hid)]; simpl.
        -- split; [by auto|]. split; [lia|done].
        -- split; [|split; [lia|]].
           ++ intros a Ha. apply elem_of_cons in Ha as [->|Ha]; [|by auto].
              split; [done|]. split; [done|]. split; [done|].
              split; [by destruct Hh as (_ & _ & _ & ? & _)|].
              exists c, ps. split; [by left|done].
           ++ intros Hn. rewrite Hn in Han. by destruct Han.
      * split; [by auto|]. split; [lia|done].
    + apply String.eqb_neq in Eact.
      destruct (decide (status c = "Active")); [done|]. by auto.
Qed.



(** ** The sentiment detector: what is counted *)

Lemma negative_post_count_from (analyzer : AIAnalyzerService)
    (posts : list SocialMediaPost) (n : nat) :
  foldl (fun n post =>
           match content post with
           | Some (String a t) =>
               if bool_decide (resolve_sentiment_label analyzer post (String a t)
                               = Some "negative")
               then S n else n
           | _ => n
           end) n posts
  = (n + length (filter (fun p => counts_negative analyzer p = true) posts))%nat.
Proof.
  revert n. induction posts as [|p posts IH]; intros n; [simpl; lia|].
  cbn [foldl]. etrans; [apply IH|].
  rewrite (filter_cons (fun p => counts_negative analyzer p = true)).
  destruct (decide (counts_negative analyzer p = true)) as [E|E];
    unfold counts_negative in E;
    destruct (content p) as [[|a t]|]; simpl; try done; try lia.
  - rewrite E. lia.
  - apply not_true_is_false in E. rewrite E. lia.
Qed.

Lemma negative_post_count_filter (analyzer : AIAnalyzerService)
    (posts : list SocialMediaPost) :
  negative_post_count analyzer posts
  = length (filter (fun p => counts_negative analyzer p = true) posts).
Proof. unfold negative_post_count. by rewrite negative_post_count_from. Qed.

Lemma counts_negative_has_text (analyzer : AIAnalyzerService) (p : SocialMediaPost) :
  counts_negative analyzer p = true -> has_text p = true.
Proof. unfold counts_negative, has_text. by destruct (content p) as [[|a t]|]. Qed.

Lemma counts_negative_prelabelled (an an' : AIAnalyzerService) (p : SocialMediaPost) :
  prelabelled p = true -> counts_negative an p = counts_negative an' p.
Proof.
  unfold prelabelled, counts_negative, resolve_sentiment_label.
  destruct (content p) as [[|a t]|]; try done.
  destruct (PyStr.truthy (sentiment_label p)) eqn:E1; simpl; [by rewrite E1|].
  destruct (sentiment p) as [d|]; [|done]. intros ->. done.
Qed.

(** X15.  The detector counts a post as negative only if it has text, so
    the count is at most the number of posts with text and posts without
    text change nothing of it; a label on [sentiment_label] is taken as it
    is, before the [sentiment] dict and the analyzer; when every post with
    text carries a label of its own, the count is the same with any
    analyzer; and the order of the posts changes neither the count nor the
    alerts returned. *)
Theorem negative_count_properties (analyzer : AIAnalyzerService)
    (posts : list SocialMediaPost) :
  (negative_post_count analyzer posts
   <= length (filter (fun p => has_text p = true) posts) <= length posts)%nat /\
  negative_post_count analyzer (filter (fun p => has_text p = true) posts)
  = negative_post_count analyzer posts /\
  (forall post text, PyStr.truthy (sentiment_label post) = true ->
     resolve_sentiment_label analyzer post text = sentiment_label post) /\
  (forall analyzer',
     (forall p, p ∈ posts -> has_text p = true -> prelabelled p = true) ->
     negative_post_count analyzer' posts = negative_post_count analyzer posts) /\
  (forall posts' self rt campaign,
     posts ≡ₚ posts' ->
     negative_post_count analyzer posts' = negative_post_count analyzer posts /\
     check_sentiment_alerts self rt campaign posts'
     = check_sentiment_alerts self rt campaign posts).
Proof.
  rewrite !negative_post_count_filter.
  split; [|split; [|split; [|split]]].
  - split; [|apply length_filter].
    rewrite <- (list_filter_filter_l (fun p => counts_negative analyzer p = true)
                  (fun p => has_text p = true))
      by apply counts_negative_has_text.
    apply length_filter.
  - f_equal. apply list_filter_filter_l, counts_negative_has_text.
  - intros post text H. unfold resolve_sentiment_label. cbv zeta.
    rewrite H. simpl. by rewrite H.
  - intros an' Hlab. rewrite negative_post_count_filter. f_equal.
    induction posts as [|p l IH]; [done|].
    rewrite !filter_cons.
    assert (Hp : counts_negative an' p = counts_negative analyzer p).
    { destruct (has_text p) eqn:E.
      - apply counts_negative_prelabelled. apply Hlab; [by left|done].
      - unfold counts_negative. unfold has_text in E.
        by destruct (content p) as [[|a t]|]. }
    rewrite Hp, IH; [done|]. intros q Hq. apply Hlab. by right.
  - intros posts' self rt campaign Hperm.
    assert (Hn : negative_post_count analyzer posts' = negative_post_count analyzer posts).
    { rewrite !negative_post_count_filter. by rewrite Hperm. }
    split; [by rewrite <- negative_post_count_filter|].
    unfold check_sentiment_alerts. destruct (ai_analyzer self) as [an|]; [|done].
    assert (Hn' : negative_post_count an posts' = negative_post_count an posts).
    { rewrite !negative_post_count_filter. by rewrite Hperm. }
    by rewrite Hn', (Permutation_length Hperm).
Qed.

Lemma negative_count_properties_witness :
  let extra := sample_post "p0" None 10 None None None None in
  negative_post_count new_AIAnalyzerService (extra :: labelled_posts 8 12)
  = negative_post_count new_AIAnalyzerService (labelled_posts 8 12 ++ [extra]).
Proof.
  cbv zeta.
  destruct (negative_count_properties new_AIAnalyzerService
              (labelled_posts 8 12 ++ [sample_post "p0" None 10 None None None None]))
    as (_ & _ & _ & _ & Hperm).
  apply (Hperm _ (new_AlertingService "test_user_123" None) sample_runtime
           sample_campaign).
  symmetry. apply Permutation_cons_append.
Defined.

(** ** The keyword sentiment analyzer *)


(** ** Hashtag extraction: [Counter], [most_common] and [extract_keywords] *)

Lemma count_of_counter_add (k k' : string) (c : list (string * Z)) :
  count_of k' (TrendIdentifier.counter_add k c)
  = count_of k' c + (if bool_decide (k = k') then 1 else 0).
Proof.
  induction c as [|[k0 n] c IH]; simpl.
  - destruct (String.eqb_spec k k'); case_bool_decide; try done; lia.
  - destruct (String.eqb_spec k0 k) as [->|Hne]; simpl.
    + destruct (String.eqb_spec k k'); case_bool_decide; try done; lia.
    + destruct (String.eqb_spec k0 k'); [|done].
      subst. case_bool_decide; [done|lia].
Qed.

Lemma counter_add_keys (k : string) (c : list (string * Z)) :
  (TrendIdentifier.counter_add k c).*1
  = if bool_decide (k ∈ c.*1) then c.*1 else (c.*1 ++ [k])%list.
Proof.
  induction c as [|[k0 n] c IH].
  - rewrite bool_decide_eq_false_2; [done|]. apply not_elem_of_nil.
  - cbn [TrendIdentifier.counter_add]. rewrite !fmap_cons. cbn [fst].
    destruct (String.eqb_spec k0 k) as [->|Hne].
    + rewrite bool_decide_eq_true_2; [done|by left].
    + rewrite fmap_cons, IH. cbn [fst]. case_bool_decide as E.
      * rewrite bool_decide_eq_true_2; [done|by right].
      * rewrite bool_decide_eq_false_2; [done|].
        intros [?|?]%elem_of_cons; [by subst|done].
Qed.

Lemma counter_add_positive (k : string) (c : list (string * Z)) :
  Forall (fun e => 1 <= e.2) c ->
  Forall (fun e => 1 <= e.2) (TrendIdentifier.counter_add k c).
Proof.
  induction 1 as [|[k0 n] c Hn Hc IH]; simpl.
  - by repeat constructor.
  - simpl in Hn. destruct (String.eqb k0 k); constructor; simpl; try done; lia.
Qed.

Lemma count_of_elem (k : string) (n : Z) (c : list (string * Z)) :
  NoDup c.*1 -> (k, n) ∈ c -> count_of k c = n.
Proof.
  induction c as [|[k0 n0] c IH]; simpl; intros Hnd Hin.
  - by apply elem_of_nil in Hin.
  - apply NoDup_cons in Hnd as [Hk0 Hnd].
    apply elem_of_cons in Hin as [[= -> ->]|Hin].
    + by rewrite String.eqb_refl.
    + destruct (String.eqb_spec k0 k) as [->|Hne]; [|by apply IH].
      exfalso. apply Hk0. apply list_elem_of_fmap. by exists (k, n).
Qed.

Lemma occurrences_snoc (k x : string) (l : list string) :
  occurrences k (l ++ [x]) = occurrences k l + (if bool_decide (x = k) then 1 else 0).
Proof.
  unfold occurrences. rewrite filter_app, length_app, filter_cons, filter_nil.
  case_bool_decide; rewrite ?decide_True, ?decide_False by done; simpl; lia.
Qed.

Lemma occurrences_positive (k : string) (l : list string) :
  k ∈ l <-> 1 <= occurrences k l.
Proof.
  unfold occurrences. split.
  - intros Hin. assert (H : k ∈ filter (fun x => x = k) l) by by apply list_elem_of_filter.
    destruct (filter _ l); [by apply elem_of_nil in H|simpl; lia].
  - intros H. destruct (filter (fun x => x = k) l) as [|y f] eqn:E; [simpl in H; lia|].
    assert (Hy : y ∈ filter (fun x => x = k) l) by (rewrite E; by left).
    apply list_elem_of_filter in Hy as [-> ?]. done.
Qed.

Lemma Counter_inv (items : list string) :
  let c := TrendIdentifier.Counter items in
  NoDup c.*1 /\
  (forall k, k ∈ c.*1 <-> k ∈ items) /\
  (forall k, count_of k c = occurrences k items) /\
  Forall (fun e => 1 <= e.2) c.
Proof.
  cbv zeta. unfold TrendIdentifier.Counter.
  induction items as [|x l IH] using rev_ind.
  - simpl. split; [constructor|]. split; [done|]. split; [done|constructor].
  - rewrite foldl_snoc. destruct IH as (Hnd & Hkeys & Hcnt & Hpos).
    set (c := foldl _ _ l) in *. rewrite counter_add_keys.
    split; [|split; [|split]].
    + case_bool_decide as E; [done|].
      apply NoDup_app. split; [done|]. split; [|apply NoDup_singleton].
      intros y Hy Hx. apply list_elem_of_singleton in Hx. by subst.
    + intros k. rewrite elem_of_app, list_elem_of_singleton, <- Hkeys.
      case_bool_decide as E.
      * split; [by left|]. intros [?|Hk]; [done|by subst].
      * by rewrite elem_of_app, list_elem_of_singleton.
    + intros k. by rewrite count_of_counter_add, occurrences_snoc, Hcnt.
    + by apply counter_add_positive.
Qed.

Lemma insert_desc_perm (x : string * Z) (l : list (string * Z)) :
  TrendIdentifier.insert_desc x l ≡ₚ x :: l.
Proof.
  induction l as [|y l IH]; simpl; [done|].
  destruct (y.2 <=? x.2); [done|]. rewrite IH. apply Permutation_swap.
Qed.

Lemma sorted_desc_perm (l : list (string * Z)) :
  TrendIdentifier.sorted_desc l ≡ₚ l.
Proof.
  induction l as [|x l IH]; simpl; [done|].
  unfold TrendIdentifier.sorted_desc in *. simpl. by rewrite insert_desc_perm, IH.
Qed.

Lemma insert_desc_sorted (x : string * Z) (l : list (string * Z)) :
  StronglySorted by_count_desc l ->
  StronglySorted by_count_desc (TrendIdentifier.insert_desc x l).
Proof.
  induction 1 as [|y l Hl IH Hy]; simpl.
  - by repeat constructor.
  - destruct (Z.leb_spec y.2 x.2) as [Hle|Hlt].
    + constructor; [by constructor|]. constructor; [done|].
      eapply Forall_impl; [exact Hy|]. unfold by_count_desc. intros z Hz. lia.
    + constructor; [done|]. rewrite insert_desc_perm. constructor; [|done].
      unfold by_count_desc. lia.
Qed.

Lemma sorted_desc_sorted (l : list (string * Z)) :
  StronglySorted by_count_desc (TrendIdentifier.sorted_desc l).
Proof.
  induction l as [|x l IH]; [constructor|]. by apply insert_desc_sorted.
Qed.

Lemma insert_desc_stable (n : Z) (x : string * Z) (l : list (string * Z)) :
  filter (fun e => e.2 = n) (TrendIdentifier.insert_desc x l)
  = filter (fun e => e.2 = n) (x :: l).
Proof.
  induction l as [|y l IH]; simpl; [done|].
  destruct (Z.leb_spec y.2 x.2) as [Hle|Hlt]; [done|].
  rewrite (filter_cons _ y), IH, !filter_cons.
  repeat case_decide; try done; lia.
Qed.

Lemma sorted_desc_stable (n : Z) (l : list (string * Z)) :
  filter (fun e => e.2 = n) (TrendIdentifier.sorted_desc l)
  = filter (fun e => e.2 = n) l.
Proof.
  induction l as [|x l IH]; [done|].
  change (TrendIdentifier.sorted_desc (x :: l))
    with (TrendIdentifier.insert_desc x (TrendIdentifier.sorted_desc l)).
  by rewrite insert_desc_stable, !filter_cons, IH.
Qed.

Lemma StronglySorted_take {A} (R : A -> A -> Prop) (k : nat) (l : list A) :
  StronglySorted R l -> StronglySorted R (take k l).
Proof.
  intros H. revert k. induction H as [|x l Hl IH Hx]; intros [|k]; simpl; try constructor.
  - apply IH.
  - eapply Forall_forall. intros y Hy. eapply Forall_forall in Hx; [exact Hx|].
    eapply subseteq_take, Hy.
Qed.

Lemma StronglySorted_split {A} (R : A -> A -> Prop) (l1 l2 : list A) :
  StronglySorted R (l1 ++ l2) -> forall x y, x ∈ l1 -> y ∈ l2 -> R x y.
Proof.
  induction l1 as [|z l1 IH]; simpl; intros H x y Hx Hy.
  - by apply elem_of_nil in Hx.
  - apply StronglySorted_inv in H as [H Hz].
    apply elem_of_cons in Hx as [->|Hx]; [|by apply IH].
    eapply Forall_forall in Hz; [exact Hz|]. apply elem_of_app. by right.
Qed.

Lemma cleaned_hashtag_nonempty (word t : string) :
  TrendIdentifier.cleaned_hashtag word = Some t -> t <> "".
Proof.
  unfold TrendIdentifier.cleaned_hashtag.
  destruct (TrendIdentifier.startswith_hash word); [|done].
  cbv zeta. destruct (TrendIdentifier.rstrip _ _); [done|]. by intros [= <-].
Qed.

Lemma all_hashtags_elem (text_list : list pyobj) (t : string) :
  t ∈ all_hashtags text_list <->
  exists text word, PyStr text ∈ text_list /\ word ∈ SentimentAnalyzer.split text /\
    TrendIdentifier.cleaned_hashtag word = Some t.
Proof.
  unfold all_hashtags. rewrite list_elem_of_bind. split.
  - intros (o & Ht & Ho). destruct o; simpl in Ht; try by apply elem_of_nil in Ht.
    apply list_elem_of_omap in Ht as (w & Hw & Hc). by exists s, w.
  - intros (text & w & Hin & Hw & Hc). exists (PyStr text). split; [|done].
    simpl. apply list_elem_of_omap. by exists w.
Qed.


(** ** Cleaning of hashtags *)

Lemma lstrip_Forall (Q : ascii -> Prop) (chars s : string) :
  Forall Q (list_ascii_of_string s) ->
  Forall Q (list_ascii_of_string (SentimentAnalyzer.lstrip chars s)).
Proof.
  induction s as [|c t IH]; simpl; [done|].
  intros H. destruct (SentimentAnalyzer.in_chars chars c); [|done].
  apply IH. by apply Forall_inv_tail in H.
Qed.

Lemma lstrip_head (chars s : string) (c : ascii) (t : string) :
  SentimentAnalyzer.lstrip chars s = String c t ->
  SentimentAnalyzer.in_chars chars c = false.
Proof.
  induction s as [|c' t' IH]; simpl; [done|].
  destruct (SentimentAnalyzer.in_chars chars c') eqn:E; [done|].
  by intros [= <- <-].
Qed.

Lemma rstrip_chars (chars s : string) :
  list_ascii_of_string (TrendIdentifier.rstrip chars s)
  = rev (list_ascii_of_string
           (SentimentAnalyzer.lstrip chars
              (string_of_list_ascii (rev (list_ascii_of_string s))))).
Proof.
  unfold TrendIdentifier.rstrip. by rewrite list_ascii_of_string_of_list_ascii.
Qed.

Lemma rstrip_Forall (Q : ascii -> Prop) (chars s : string) :
  Forall Q (list_ascii_of_string s) ->
  Forall Q (list_ascii_of_string (TrendIdentifier.rstrip chars s)).
Proof.
  intros H. rewrite rstrip_chars. apply Forall_rev, lstrip_Forall.
  rewrite list_ascii_of_string_of_list_ascii. by apply Forall_rev.
Qed.

Lemma lstrip_suffix (chars s : string) :
  list_ascii_of_string (SentimentAnalyzer.lstrip chars s)
  `suffix_of` list_ascii_of_string s.
Proof.
  induction s as [|c t IH]; simpl; [done|].
  destruct (SentimentAnalyzer.in_chars chars c); [|done].
  by apply suffix_cons_r.
Qed.

Lemma rstrip_prefix (chars s : string) :
  list_ascii_of_string (TrendIdentifier.rstrip chars s)
  `prefix_of` list_ascii_of_string s.
Proof.
  rewrite rstrip_chars.
  destruct (lstrip_suffix chars (string_of_list_ascii (rev (list_ascii_of_string s))))
    as [k Hk].
  rewrite list_ascii_of_string_of_list_ascii in Hk.
  exists (rev k). apply (f_equal (@rev ascii)) in Hk. by rewrite rev_involutive, rev_app_distr in Hk.
Qed.

Lemma is_lower_chars (s : string) :
  is_lower s <->
  Forall (fun c => PyStr.lower_ascii c = c) (list_ascii_of_string s).
Proof.
  unfold is_lower. induction s as [|c t IH]; simpl; [by split|].
  rewrite Forall_cons, <- IH. split; [by intros [= -> ->]|by intros [-> ->]].
Qed.

Lemma lower_is_lower (s : string) : is_lower (PyStr.lower s).
Proof. apply lower_idem. Qed.

Lemma startswith_hash_lower (word : string) :
  TrendIdentifier.startswith_hash (PyStr.lower word)
  = TrendIdentifier.startswith_hash word.
Proof.
  destruct word as [|c t]; [done|]. simpl.
  by destruct c as [[] [] [] [] [] [] [] []].
Qed.

Lemma is_space_lower (c : ascii) :
  SentimentAnalyzer.is_space (PyStr.lower_ascii c) = SentimentAnalyzer.is_space c.
Proof. by destruct c as [[] [] [] [] [] [] [] []]. Qed.

Lemma lower_app (a b : string) :
  PyStr.lower (a +:+ b) = PyStr.lower a +:+ PyStr.lower b.
Proof. induction a as [|c a IH]; simpl; [done|]. by rewrite IH. Qed.

Lemma split_from_lower (tok s : string) :
  SentimentAnalyzer.split_from (PyStr.lower tok) (PyStr.lower s)
  = PyStr.lower <$> SentimentAnalyzer.split_from tok s.
Proof.
  revert tok. induction s as [|c t IH]; intros tok; simpl.
  - by destruct tok.
  - rewrite is_space_lower. destruct (SentimentAnalyzer.is_space c).
    + destruct tok as [|a tok]; simpl.
      * apply (IH "").
      * f_equal. apply (IH "").
    + rewrite <- IH. by rewrite lower_app.
Qed.

Lemma split_lower (s : string) :
  SentimentAnalyzer.split (PyStr.lower s) = PyStr.lower <$> SentimentAnalyzer.split s.
Proof. apply (split_from_lower "" s). Qed.

Lemma cleaned_hashtag_lower (word : string) :
  TrendIdentifier.cleaned_hashtag (PyStr.lower word)
  = TrendIdentifier.cleaned_hashtag word.
Proof.
  unfold TrendIdentifier.cleaned_hashtag.
  by rewrite startswith_hash_lower, lower_idem.
Qed.

Lemma hashtags_of_lower (o : pyobj) :
  TrendIdentifier.hashtags_of (lower_text o) = TrendIdentifier.hashtags_of o.
Proof.
  destruct o; try done. simpl. rewrite split_lower.
  induction (SentimentAnalyzer.split s) as [|w l IH]; [done|].
  rewrite fmap_cons. cbn [omap list_omap]. by rewrite cleaned_hashtag_lower, IH.
Qed.

Lemma all_hashtags_lower (text_list : list pyobj) :
  all_hashtags (lower_text <$> text_list) = all_hashtags text_list.
Proof.
  unfold all_hashtags. induction text_list as [|o l IH]; [done|].
  rewrite fmap_cons, !bind_cons. by rewrite hashtags_of_lower, IH.
Qed.


(** ** [analyze_posts] *)

Lemma extract_keywords_most_common (text_list : list pyobj) (top_n : Z) :
  TrendIdentifier.extract_keywords text_list top_n
  = TrendIdentifier.most_common (TrendIdentifier.Counter (all_hashtags text_list)) top_n.
Proof.
  unfold TrendIdentifier.extract_keywords. cbv zeta. fold (all_hashtags text_list).
  destruct (all_hashtags text_list); [|done].
  unfold TrendIdentifier.most_common. simpl. by rewrite take_nil.
Qed.

Lemma most_common_elem (c : list (string * Z)) (n : Z) (e : string * Z) :
  e ∈ TrendIdentifier.most_common c n -> e ∈ c.
Proof.
  unfold TrendIdentifier.most_common. intros He.
  rewrite <- (sorted_desc_perm c). by eapply subseteq_take.
Qed.

Lemma extract_keywords_entries (text_list : list pyobj) (top_n : Z) (t : string) (n : Z) :
  (t, n) ∈ TrendIdentifier.extract_keywords text_list top_n ->
  t ∈ all_hashtags text_list /\ t <> "" /\
  n = occurrences t (all_hashtags text_list) /\ 1 <= n.
Proof.
  rewrite extract_keywords_most_common. intros Hin%most_common_elem.
  destruct (Counter_inv (all_hashtags text_list)) as (Hnd & Hkeys & Hcnt & Hpos).
  assert (Ht : t ∈ all_hashtags text_list).
  { apply Hkeys. apply list_elem_of_fmap. by exists (t, n). }
  split; [done|]. split.
  { apply all_hashtags_elem in Ht as (text & w & _ & _ & Hc).
    by eapply cleaned_hashtag_nonempty. }
  rewrite <- Hcnt. split; [symmetry; by apply count_of_elem|].
  eapply Forall_forall in Hpos; [|exact Hin]. done.
Qed.

Lemma extract_keywords_NoDup (text_list : list pyobj) (top_n : Z) :
  NoDup (TrendIdentifier.extract_keywords text_list top_n).*1.
Proof.
  rewrite extract_keywords_most_common. unfold TrendIdentifier.most_common.
  destruct (Counter_inv (all_hashtags text_list)) as (Hnd & _).
  rewrite fmap_take. eapply sublist_NoDup; [|apply sublist_take].
  by rewrite sorted_desc_perm.
Qed.

Lemma extract_keywords_length (text_list : list pyobj) (top_n : Z) :
  length (TrendIdentifier.extract_keywords text_list top_n)
  = Nat.min (Z.to_nat top_n) (length (remove_dups (all_hashtags text_list))).
Proof.
  rewrite extract_keywords_most_common. unfold TrendIdentifier.most_common.
  destruct (Counter_inv (all_hashtags text_list)) as (Hnd & Hkeys & _).
  rewrite length_take. f_equal. rewrite sorted_desc_perm.
  rewrite <- (length_fmap fst). apply Permutation_length.
  apply NoDup_Permutation; [done|apply NoDup_remove_dups|].
  intros x. by rewrite Hkeys, elem_of_remove_dups.
Qed.

Lemma analyze_sentiment_full_cases (o : pyobj) :
  score_matches_label (analyze_sentiment_full o) /\
  match o with
  | PyStr (String _ _ as text) =>
      sr_error (analyze_sentiment_full o) = None /\
      Some (sr_label (analyze_sentiment_full o))
      = sd_label (SentimentAnalyzer.analyze_sentiment text)
  | _ =>
      sr_label (analyze_sentiment_full o) = "neutral" /\
      sr_error (analyze_sentiment_full o) = Some "Invalid input text"
  end.
Proof.
  unfold score_matches_label.
  destruct o as [|[|a t]| | | |]; simpl; try (split; [right; right|]; done).
  unfold keyword_scores. cbv zeta.
  change (String (PyStr.lower_ascii a) (PyStr.lower t)) with (PyStr.lower (String a t)).
  destruct (foldl _ _ _) as [p n].
  destruct (Z.ltb_spec n p); simpl.
  { split; [left; split; [done|]; exists (p - n); split; [done|lia]|done]. }
  destruct (Z.ltb_spec p n); simpl.
  { split; [right; left; split; [done|]; exists (p - n); split; [done|lia]|done]. }
  split; [right; right|]; done.
Qed.

Lemma analyze_posts_loop (posts : list (gmap string pyobj))
    (st : list (gmap string post_value) * list pyobj) :
  let st' := foldl analyze_posts_body st posts in
  st'.2 = (st.2 ++ filter (fun o => py_truthy o = true) (content_of <$> posts))%list /\
  length st'.1 = (length st.1 + length posts)%nat /\
  (forall i, (i < length st.1)%nat -> st'.1 !! i = st.1 !! i) /\
  (forall i post, posts !! i = Some post ->
     exists ap res,
       st'.1 !! (length st.1 + i)%nat = Some ap /\
       ap !! "sentiment" = Some (Sentiment res) /\
       (forall k, k <> "sentiment" -> ap !! k = Given <$> post !! k) /\
       score_matches_label res /\
       match content_of post with
       | PyStr (String _ _ as text) =>
           sr_error res = None /\
           Some (sr_label res) = sd_label (SentimentAnalyzer.analyze_sentiment text)
       | o =>
           sr_label res = "neutral" /\
           sr_error res = Some (if py_truthy o then "Invalid input text"
                                else "No content to analyze")
       end).
Proof.
  cbv zeta. induction posts as [|post l IH] using rev_ind.
  - simpl. rewrite app_nil_r. split; [done|]. split; [lia|]. split; [done|].
    intros i p Hp. by rewrite lookup_nil in Hp.
  - rewrite foldl_snoc, fmap_app, filter_app, length_app.
    destruct IH as (Htexts & Hlen & Hold & Hnew).
    destruct (foldl analyze_posts_body st l) as [aps texts]. cbn [fst snd] in *.
    assert (Hbody : exists ap res,
      analyze_posts_body (aps, texts) post
      = ((aps ++ [ap])%list,
         (texts ++ filter (fun o => py_truthy o = true) [content_of post])%list) /\
      ap !! "sentiment" = Some (Sentiment res) /\
      (forall k, k <> "sentiment" -> ap !! k = Given <$> post !! k) /\
      score_matches_label res /\
      match content_of post with
      | PyStr (String _ _ as text) =>
          sr_error res = None /\
          Some (sr_label res) = sd_label (SentimentAnalyzer.analyze_sentiment text)
      | o =>
          sr_label res = "neutral" /\
          sr_error res = Some (if py_truthy o then "Invalid input text"
                               else "No content to analyze")
      end).
    { unfold analyze_posts_body. cbv zeta. fold (content_of post).
      rewrite filter_cons, filter_nil.
      destruct (py_truthy (content_of post)) eqn:Etruthy.
      - rewrite decide_True by done.
        eexists _, _. split; [reflexivity|]. split; [by rewrite lookup_insert_eq|].
        split; [intros k Hk; by rewrite lookup_insert_ne, lookup_fmap by done|].
        destruct (analyze_sentiment_full_cases (content_of post)) as [Hs Hc].
        split; [done|].
        destruct (content_of post) as [|[|a t]| | | |]; try done;
          by rewrite Etruthy.
      - rewrite decide_False by done. rewrite app_nil_r.
        eexists _, _. split; [reflexivity|]. split; [by rewrite lookup_insert_eq|].
        split; [intros k Hk; by rewrite lookup_insert_ne, lookup_fmap by done|].
        split; [by right; right|].
        destruct (content_of post) as [|[|a t]| | | |]; try done;
          by rewrite Etruthy. }
    destruct Hbody as (ap & res & -> & Hsent & Hkeys & Hscore & Hcontent).
    cbn [fst snd].
    split; [by rewrite Htexts, <- app_assoc|].
    split; [rewrite length_app; simpl; lia|].
    split.
    { intros i Hi. rewrite lookup_app_l by lia. by apply Hold. }
    intros i p Hp. destruct (decide (i < length l)%nat) as [Hi|Hi].
    + rewrite lookup_app_l in Hp by done.
      destruct (Hnew i p Hp) as (ap' & res' & Hap' & Hrest).
      exists ap', res'. split; [|done]. rewrite lookup_app_l by lia. done.
    + rewrite lookup_app_r in Hp by lia.
      destruct (i - length l)%nat as [|j] eqn:Ej; [|done].
      simpl in Hp. injection Hp as <-.
      exists ap, res. split; [|done].
      rewrite lookup_app_r by lia.
      replace (length st.1 + i - length aps)%nat with 0%nat by lia. done.
Qed.

Lemma analyze_posts_unfold (posts_data : list (gmap string pyobj)) :
  let texts := filter (fun o => py_truthy o = true) (content_of <$> posts_data) in
  trends (analyze_posts posts_data)
  = (fun e => trend e.1 e.2) <$> TrendIdentifier.extract_keywords texts 10 /\
  analyzed_posts (analyze_posts posts_data)
  = (foldl analyze_posts_body ([], []) posts_data).1.
Proof.
  cbv zeta. unfold analyze_posts. destruct posts_data as [|post l]; [done|].
  destruct (analyze_posts_loop (post :: l) ([], [])) as (Htexts & _).
  destruct (foldl analyze_posts_body ([], []) (post :: l)) as [aps texts].
  cbn [fst snd app] in *. rewrite <- Htexts. split; [|done].
  destruct texts as [|o texts']; [done|].
  apply list_fmap_ext. by intros i [t n] _.
Qed.

Lemma analyze_posts_trends (posts_data : list (gmap string pyobj)) :
  let texts := filter (fun o => py_truthy o = true) (content_of <$> posts_data) in
  let found := trends (analyze_posts posts_data) in
  (length found <= 10)%nat /\
  NoDup (term <$> found) /\
  (forall td, td ∈ found ->
     exists t n, td = trend t n /\ t <> "" /\
       n = occurrences t (all_hashtags texts) /\ 1 <= n).
Proof.
  cbv zeta. destruct (analyze_posts_unfold posts_data) as [-> _].
  set (texts := filter _ _). split; [|split].
  - rewrite length_fmap, extract_keywords_length. lia.
  - rewrite <- list_fmap_compose.
    pose proof (extract_keywords_NoDup texts 10) as Hnd.
    apply (NoDup_fmap_2 Some) in Hnd. by rewrite <- list_fmap_compose in Hnd.
  - intros td ([t n] & -> & Hin)%list_elem_of_fmap.
    exists t, n. split; [done|]. apply extract_keywords_entries in Hin.
    by destruct Hin as (_ & ? & ? & ?).
Qed.


(** ** Trends seen for the first time; the analyzer feeding the trend tracker *)

Lemma NoDup_fmap_eq {A B} (f : A -> B) (l : list A) (x y : A) :
  NoDup (f <$> l) -> x ∈ l -> y ∈ l -> f x = f y -> x = y.
Proof.
  induction l as [|z l IH]; intros Hnd Hx Hy Hf; [by apply elem_of_nil in Hx|].
  rewrite fmap_cons in Hnd. apply NoDup_cons in Hnd as [Hz Hnd].
  apply elem_of_cons in Hx as [->|Hx]; apply elem_of_cons in Hy as [->|Hy]; try done.
  - exfalso. apply Hz. rewrite Hf. by apply list_elem_of_fmap_2.
  - exfalso. apply Hz. rewrite <- Hf. by apply list_elem_of_fmap_2.
  - by apply IH.
Qed.

Lemma trend_first_sighting (rt : runtime) (l : list trend_data)
    (st : AlertingService * list Alert) :
  NoDup (term <$> l) ->
  (forall td, td ∈ l ->
     exists t, term td = Some t /\ t <> "" /\ seen_trends st.1 !! t = None) ->
  exists new,
    (foldl (check_trend_body rt) st l).2 = (st.2 ++ new)%list /\
    related_entity_id <$> new = term <$> filter (fun td => loud_entry td = true) l /\
    Forall (fun a => type a = "new_trend" /\ severity a = "info") new.
Proof.
  revert st. induction l as [|td l IH]; intros st Hnd Hall.
  - exists []. simpl. by rewrite app_nil_r.
  - rewrite fmap_cons in Hnd. apply NoDup_cons in Hnd as [Htd Hnd].
    destruct (Hall td) as (t & Ht & Hne & Hseen); [by left|].
    destruct st as [self alerts]. cbn [fst snd] in *. cbn [foldl].
    assert (Hbody : exists new0,
      check_trend_body rt (self, alerts) td
      = (set_seen_trends self
           (<[t := {| volume := default 0 (count td); trend_timestamp := utcnow rt |}]>
              (seen_trends self)),
         (alerts ++ new0)%list) /\
      related_entity_id <$> new0
      = term <$> filter (fun td => loud_entry td = true) [td] /\
      Forall (fun a => type a = "new_trend" /\ severity a = "info") new0).
    { unfold check_trend_body. rewrite Ht. destruct t as [|c t]; [done|]. rewrite Hseen.
      rewrite filter_cons, filter_nil. unfold loud_entry. rewrite Ht. cbn [PyStr.truthy andb].
      destruct (TREND_VOLUME_THRESHOLD <=? default 0 (count td)).
      - rewrite decide_True by done. eexists [_]. split; [reflexivity|].
        split; [cbn; by rewrite Ht|]. by repeat constructor.
      - rewrite decide_False by done. exists []. by rewrite app_nil_r. }
    destruct Hbody as (new0 & -> & Hids0 & Htypes0).
    destruct (IH (set_seen_trends self
                    (<[t := {| volume := default 0 (count td);
                               trend_timestamp := utcnow rt |}]> (seen_trends self)),
                  (alerts ++ new0)%list) Hnd) as (new & -> & Hids & Htypes).
    { intros td' Htd'. destruct (Hall td') as (t' & Ht' & Hne' & Hseen'); [by right|].
      exists t'. split; [done|]. split; [done|]. cbn [fst]. simpl.
      rewrite lookup_insert_ne; [done|]. intros ->. apply Htd.
      rewrite Ht, <- Ht'. by apply list_elem_of_fmap_2. }
    exists (new0 ++ new)%list. cbn [fst snd]. split; [by rewrite app_assoc|].
    split; [|by apply Forall_app].
    rewrite fmap_app, Hids0, Hids, <- fmap_app. f_equal.
    by rewrite (filter_app _ [td] l).
Qed.

(** X20.  When the terms of the input are present, non-empty, distinct and
    not yet in [seen_trends], [check_trend_alerts] returns exactly one alert
    for each entry whose count reaches [TREND_VOLUME_THRESHOLD], in input
    order, each of type ["new_trend"] and severity ["info"] and each about
    its entry's term. *)
Theorem first_sighting_alerts (self : AlertingService) (rt : runtime)
    (current_trends : list trend_data) :
  NoDup (term <$> current_trends) ->
  (forall td, td ∈ current_trends ->
     exists t, term td = Some t /\ t <> "" /\ seen_trends self !! t = None) ->
  let alerts := (check_trend_alerts self rt current_trends).2 in
  related_entity_id <$> alerts
  = term <$> filter (fun td => loud_entry td = true) current_trends /\
  Forall (fun a => type a = "new_trend" /\ severity a = "info") alerts.
Proof.
  intros Hnd Hall. cbv zeta. unfold check_trend_alerts.
  destruct (trend_first_sighting rt current_trends (self, []) Hnd Hall)
    as (new & -> & Hids & Htypes).
  done.
Qed.

Lemma first_sighting_alerts_witness :
  let l := [trend "#NaijaTechNow" 150; trend "#quiet" 2; trend "#NewHotTopic" 200] in
  related_entity_id
    <$> (check_trend_alerts (new_AlertingService "test_user_123" None) sample_runtime l).2
  = [Some "#NaijaTechNow"; Some "#NewHotTopic"].
Proof.
  cbv zeta.
  refine (proj1 (first_sighting_alerts (new_AlertingService "test_user_123" None)
                   sample_runtime
                   [trend "#NaijaTechNow" 150; trend "#quiet" 2; trend "#NewHotTopic" 200]
                   _ _)).
  - apply (bool_decide_unpack _). by vm_compute.
  - intros td Htd.
    repeat (apply elem_of_cons in Htd as [->|Htd]);
      [by eexists|by eexists|by eexists|by apply elem_of_nil in Htd].
Defined.

